(** * roles_lambda_function.py: change-event replication into two stores

    A shallow embedding of [roles_lambda_function.py].  The handler receives
    a batch of change events of a document collection and replays them on a
    Redshift table ([documentdb.roles]) and on an Oracle table ([CFG_ROLE]).

    - JSON payloads are the inductive type [value]; a Python [dict] is an
      association list in insertion order, looked up by its first matching
      key.  Floats are left out of the payload type and strings are ASCII.
    - Everything outside the module (Secrets Manager, the two database
      drivers, standard output) is an [environment] that answers each call,
      and a [world] that records every call in the order it was made.
    - Python exceptions are the [Raised] outcome of the monad [M]. *)

From Stdlib Require Import String Ascii List ZArith Bool Lia DecimalString.
Import ListNotations.
Open Scope string_scope.
Open Scope Z_scope.
Set Warnings "-register-all".

(** ** JSON-like Python values *)

Inductive value : Type :=
| VNone
| VBool (b : bool)
| VInt (z : Z)
| VStr (s : string)
| VList (items : list value)
| VDict (entries : list (string * value)).

Definition dict := list (string * value).

(** [d.get(key)] and [key in d] on the entries of a dict. *)
Fixpoint lookup (key : string) (d : dict) : option value :=
  match d with
  | [] => None
  | (k, v) :: rest => if String.eqb k key then Some v else lookup key rest
  end.

Definition dict_get (d : dict) (key : string) (default : value) : value :=
  match lookup key d with
  | Some v => v
  | None => default
  end.

Definition contains_key (key : string) (d : dict) : bool :=
  match lookup key d with
  | Some _ => true
  | None => false
  end.

(** Python truth value testing ([if x], [not x]). *)
Definition truthy (v : value) : bool :=
  match v with
  | VNone => false
  | VBool b => b
  | VInt z => negb (z =? 0)
  | VStr s => negb (String.eqb s "")
  | VList items => match items with [] => false | _ => true end
  | VDict entries => match entries with [] => false | _ => true end
  end.

(** [v == 'literal']: only a [str] equals a [str] literal. *)
Definition eq_str (v : value) (literal : string) : bool :=
  match v with
  | VStr s => String.eqb s literal
  | _ => false
  end.

(** ** [str], [repr] and [json.dumps] *)

Definition dquote : ascii := "034"%char.

Definition hex_digit (n : nat) : ascii :=
  nth n (list_ascii_of_string "0123456789abcdef") "0"%char.

Definition hex2 (c : ascii) : string :=
  let n := nat_of_ascii c in
  String (hex_digit (n / 16)) (String (hex_digit (n mod 16)) "").

Fixpoint has_char (c : ascii) (s : string) : bool :=
  match s with
  | EmptyString => false
  | String a rest => if Ascii.eqb a c then true else has_char c rest
  end.

Definition repr_char (quote c : ascii) : string :=
  if Ascii.eqb c quote then String "\" (String c "")
  else if Ascii.eqb c "\" then "\\"
  else if Ascii.eqb c "009" then "\t"
  else if Ascii.eqb c "010" then "\n"
  else if Ascii.eqb c "013" then "\r"
  else if (nat_of_ascii c <? 32)%nat || (nat_of_ascii c =? 127)%nat
       then "\x" ++ hex2 c
  else String c "".

Fixpoint escape_with (f : ascii -> string) (s : string) : string :=
  match s with
  | EmptyString => ""
  | String c rest => f c ++ escape_with f rest
  end.

(** [repr] of a [str]: single quotes, unless the text holds a single quote
    and no double quote. *)
Definition repr_str (s : string) : string :=
  let quote := if has_char "'" s && negb (has_char dquote s)
               then dquote else "'"%char in
  String quote (escape_with (repr_char quote) s ++ String quote "").

Definition str_int (z : Z) : string := NilZero.string_of_int (Z.to_int z).

Fixpoint join (sep : string) (parts : list string) : string :=
  match parts with
  | [] => ""
  | [p] => p
  | p :: rest => p ++ sep ++ join sep rest
  end.

Fixpoint py_repr (v : value) : string :=
  match v with
  | VNone => "None"
  | VBool true => "True"
  | VBool false => "False"
  | VInt z => str_int z
  | VStr s => repr_str s
  | VList items => "[" ++ join ", " (map py_repr items) ++ "]"
  | VDict entries =>
      "{" ++ join ", " (map (fun kv => repr_str (fst kv) ++ ": " ++ py_repr (snd kv))
                            entries) ++ "}"
  end.

(** [str(v)]: the text itself for a [str], [repr] otherwise. *)
Definition py_str (v : value) : string :=
  match v with
  | VStr s => s
  | _ => py_repr v
  end.

Definition json_char (c : ascii) : string :=
  if Ascii.eqb c dquote then String "\" (String dquote "")
  else if Ascii.eqb c "\" then "\\"
  else if Ascii.eqb c "010" then "\n"
  else if Ascii.eqb c "013" then "\r"
  else if Ascii.eqb c "009" then "\t"
  else if Ascii.eqb c "008" then "\b"
  else if Ascii.eqb c "012" then "\f"
  else if (nat_of_ascii c <? 32)%nat then "\u00" ++ hex2 c
  else String c "".

Definition json_str (s : string) : string :=
  String dquote (escape_with json_char s ++ String dquote "").

Fixpoint json_dumps (v : value) : string :=
  match v with
  | VNone => "null"
  | VBool true => "true"
  | VBool false => "false"
  | VInt z => str_int z
  | VStr s => json_str s
  | VList items => "[" ++ join ", " (map json_dumps items) ++ "]"
  | VDict entries =>
      "{" ++ join ", " (map (fun kv => json_str (fst kv) ++ ": " ++ json_dumps (snd kv))
                            entries) ++ "}"
  end.

(** ** Exceptions and the effect monad *)

Record exn : Type := Exn { exn_class : string; exn_text : string }.

Definition type_name (v : value) : string :=
  match v with
  | VNone => "NoneType"
  | VBool _ => "bool"
  | VInt _ => "int"
  | VStr _ => "str"
  | VList _ => "list"
  | VDict _ => "dict"
  end.

Definition AttributeError (v : value) (attr : string) : exn :=
  Exn "AttributeError"
      ("'" ++ type_name v ++ "' object has no attribute '" ++ attr ++ "'").

Definition KeyError (key : string) : exn := Exn "KeyError" (repr_str key).

Definition NotSubscriptable (v : value) : exn :=
  Exn "TypeError"
      match v with
      | VList _ => "list indices must be integers or slices, not str"
      | VStr _ => "string indices must be integers, not 'str'"
      | _ => "'" ++ type_name v ++ "' object is not subscriptable"
      end.

Definition NotIterable (v : value) : exn :=
  Exn "TypeError" ("'" ++ type_name v ++ "' object is not iterable").

Inductive outcome (A : Type) : Type :=
| Normal (a : A)
| Raised (e : exn).

Arguments Normal {A} a.
Arguments Raised {A} e.

(** ** The outside world *)

Inductive store : Type := Redshift | Oracle.

(** The second argument of [cursor.execute]: a tuple or a dict. *)
Inductive sql_params : Type :=
| Positional (args : list value)
| Named (args : dict).

Inductive call : Type :=
| Execute (sql : string) (params : sql_params)
| Commit
| Rollback
| CloseCursor
| CloseConnection.

Inductive effect : Type :=
| Print (line : string)
| GetSecret (name : string)
| Connect (s : store) (kwargs : dict)
| OpenCursor (s : store)
| Call (s : store) (c : call).

(** What a driver call does: it returns, leaving [cursor.rowcount] at the
    given number after an [execute], or it raises. *)
Inductive response : Type :=
| Done (rowcount : Z)
| Fails (e : exn).

Record environment : Type := {
  (** [json.loads] of the secret string, or the exception on the way *)
  secret_value : string -> value + exn;
  (** [psycopg2.connect] / [oracledb.connect]: [None] when it connects *)
  connect : store -> dict -> option exn;
  (** the answer to a cursor or connection call, given all that happened *)
  respond : list effect -> store -> call -> response
}.

Record world : Type := {
  log : list effect;
  rowcount : store -> Z
}.

Definition M (A : Type) : Type := world -> outcome A * world.

Definition ret {A : Type} (a : A) : M A := fun w => (Normal a, w).

Definition raise {A : Type} (e : exn) : M A := fun w => (Raised e, w).

Definition bind {A B : Type} (m : M A) (k : A -> M B) : M B :=
  fun w =>
    match m w with
    | (Normal a, w1) => k a w1
    | (Raised e, w1) => (Raised e, w1)
    end.

Notation "x <- m ;; k" := (bind m (fun x => k))
  (at level 61, m at next level, right associativity).
Notation "m ;; k" := (bind m (fun _ => k))
  (at level 61, right associativity).

(** [try: body / except Exception as e: handler e / finally: final]. *)
Definition try_except_finally (body : M unit) (handler : exn -> M unit)
    (final : M unit) : M unit :=
  fun w =>
    match body w with
    | (Normal a, w1) =>
        match final w1 with
        | (Normal _, w2) => (Normal a, w2)
        | (Raised e, w2) => (Raised e, w2)
        end
    | (Raised e, w1) =>
        match handler e w1 with
        | (Normal a, w2) =>
            match final w2 with
            | (Normal _, w3) => (Normal a, w3)
            | (Raised e', w3) => (Raised e', w3)
            end
        | (Raised e', w2) =>
            match final w2 with
            | (Normal _, w3) => (Raised e', w3)
            | (Raised e'', w3) => (Raised e'', w3)
            end
        end
    end.

Fixpoint for_each {A : Type} (items : list A) (body : A -> M unit) : M unit :=
  match items with
  | [] => ret tt
  | item :: rest => body item ;; for_each rest body
  end.

Definition record_effect (e : effect) (w : world) : world :=
  {| log := log w ++ [e]; rowcount := rowcount w |}.

Definition emit (e : effect) : M unit := fun w => (Normal tt, record_effect e w).

Definition print (line : string) : M unit := emit (Print line).

Definition store_eqb (a b : store) : bool :=
  match a, b with
  | Redshift, Redshift | Oracle, Oracle => true
  | _, _ => false
  end.

Definition set_rowcount (s : store) (n : Z) (w : world) : world :=
  {| log := log w;
     rowcount := fun s' => if store_eqb s' s then n else rowcount w s' |}.

(** [v.get(key, default)] *)
Definition get (v : value) (key : string) (default : value) : M value :=
  match v with
  | VDict d => ret (dict_get d key default)
  | _ => raise (AttributeError v "get")
  end.

(** [v[key]] with a [str] key *)
Definition subscript (v : value) (key : string) : M value :=
  match v with
  | VDict d =>
      match lookup key d with
      | Some x => ret x
      | None => raise (KeyError key)
      end
  | _ => raise (NotSubscriptable v)
  end.

Fixpoint chars (s : string) : list value :=
  match s with
  | EmptyString => []
  | String c rest => VStr (String c "") :: chars rest
  end.

(** The items a [for] loop visits. *)
Definition iterate (v : value) : M (list value) :=
  match v with
  | VList items => ret items
  | VDict entries => ret (map (fun kv => VStr (fst kv)) entries)
  | VStr s => ret (chars s)
  | _ => raise (NotIterable v)
  end.

Definition insert_sql : string :=
  "INSERT INTO documentdb.roles (id, data, last_update_date) VALUES (%s, %s, %s);".

Definition update_sql : string :=
  "UPDATE documentdb.roles SET data = %s, last_update_date = %s WHERE id = %s;".

Definition merge_sql : string :=
  "
            MERGE INTO CFG_ROLE tgt
            USING (SELECT :role_id AS role_id FROM dual) src
            ON (tgt.ROLEID = src.role_id)
            WHEN MATCHED THEN UPDATE SET
                ROLENAME = :role_name,
                ROLEDESCRIPTION = :role_description,
                ROLESTATUS = :role_status,
                TAG = :tag,
                CATEGORY = :category,
                TOOLTIP = :tooltip,
                MODIFIEDBY = :last_updater_id,
                MODIFIEDDATETIME = :last_update_date
            WHEN NOT MATCHED THEN INSERT (
                ROLEID, ROLENAME, ROLEDESCRIPTION, ROLESTATUS, TAG, CATEGORY, TOOLTIP,
                MODIFIEDBY, MODIFIEDDATETIME
            ) VALUES (
                :role_id, :role_name, :role_description, :role_status, :tag, :category, :tooltip,
                :creator_id, :create_date
            )
        ".

Definition delete_sql : string := "DELETE FROM CFG_ROLE WHERE ROLEID = :id".

(** ** The program *)

Section Program.

Variable env : environment.

(** A call on a cursor or a connection of store [s]. *)
Definition db_call (s : store) (c : call) : M unit :=
  fun w =>
    let w1 := record_effect (Call s c) w in
    match respond env (log w) s c with
    | Done n =>
        (Normal tt, match c with
                    | Execute _ _ => set_rowcount s n w1
                    | _ => w1
                    end)
    | Fails e => (Raised e, w1)
    end.

Definition execute (cursor : store) (sql : string) (params : sql_params) : M unit :=
  db_call cursor (Execute sql params).

Definition read_rowcount (cursor : store) : M Z :=
  fun w => (Normal (rowcount w cursor), w).

Definition db_connect (s : store) (kwargs : dict) : M unit :=
  emit (Connect s kwargs) ;;
  match connect env s kwargs with
  | None => ret tt
  | Some e => raise e
  end.

(** [conn.cursor()] *)
Definition open_cursor (s : store) : M unit := emit (OpenCursor s).

Definition get_secret (secret_name : string) : M value :=
  emit (GetSecret secret_name) ;;
  match secret_value env secret_name with
  | inl secret => ret secret
  | inr e =>
      print ("ERROR retrieving secret " ++ secret_name ++ ": " ++ exn_text e) ;;
      ret VNone
  end.

(** [isinstance(_id_raw, dict) and '$oid' in _id_raw] *)
Definition is_wrapped (_id_raw : value) : bool :=
  match _id_raw with
  | VDict d => contains_key "$oid" d
  | _ => false
  end.

Definition extract_id (doc : value) : M value :=
  _id_raw <- get doc "_id" VNone ;;
  if is_wrapped _id_raw then subscript _id_raw "$oid"
  else ret (if truthy _id_raw then VStr (py_str _id_raw) else VNone).

Definition insert_redshift_role (cursor : store) (role : value) : M unit :=
  id <- extract_id role ;;
  if negb (truthy id) then print "Missing _id for insert."
  else
    let data := json_dumps role in
    last_update_date <- get role "last_update_date" VNone ;;
    execute cursor insert_sql (Positional [id; VStr data; last_update_date]) ;;
    print ("Inserted Redshift role " ++ py_str id).

Definition update_redshift_role (cursor : store) (role : value) : M unit :=
  id <- extract_id role ;;
  if negb (truthy id) then print "Missing _id for update."
  else
    let data := json_dumps role in
    last_update_date <- get role "last_update_date" VNone ;;
    execute cursor update_sql (Positional [VStr data; last_update_date; id]) ;;
    n <- read_rowcount cursor ;;
    if n =? 0 then insert_redshift_role cursor role
    else print ("Updated Redshift role " ++ py_str id).

Definition system_identity : string := "americold_compass".

Definition update_oracle_role (cursor : store) (role operation_type : value) : M unit :=
  role_id <- get role "role_id" VNone ;;
  if negb (truthy role_id) then print "Missing role_id for Oracle operation."
  else
    is_deleted <- get role "is_deleted" (VBool false) ;;
    if (eq_str operation_type "insert" || eq_str operation_type "update"
        || eq_str operation_type "replace") && negb (truthy is_deleted)
    then
      role_name <- get role "role_name" VNone ;;
      role_description <- get role "role_description" VNone ;;
      role_status <- get role "role_status" VNone ;;
      tag <- get role "tag" VNone ;;
      category <- get role "category" VNone ;;
      tooltip <- get role "tooltip" VNone ;;
      create_date <- get role "create_date" VNone ;;
      last_update_date <- get role "last_update_date" VNone ;;
      let params :=
        [ ("role_id", role_id);
          ("role_name", role_name);
          ("role_description", role_description);
          ("role_status", role_status);
          ("tag", tag);
          ("category", category);
          ("tooltip", tooltip);
          ("creator_id", VStr system_identity);
          ("create_date", create_date);
          ("last_updater_id", VStr system_identity);
          ("last_update_date", last_update_date) ] in
      execute cursor merge_sql (Named params) ;;
      print ("Oracle role " ++ py_str role_id ++ " merged.")
    else if eq_str operation_type "delete" || truthy is_deleted then
      execute cursor delete_sql (Named [("id", role_id)]) ;;
      print ("Oracle role " ++ py_str role_id ++ " deleted.")
    else ret tt.

Definition process_event (record : value) (redshift_cursor oracle_cursor : store)
    : M unit :=
  event_data <- get record "event" (VDict []) ;;
  operation_type <- get event_data "operationType" VNone ;;
  full_document <- get event_data "fullDocument" (VDict []) ;;
  document_key <- get event_data "documentKey" (VDict []) ;;
  if eq_str operation_type "insert" then
    insert_redshift_role redshift_cursor full_document ;;
    update_oracle_role oracle_cursor full_document operation_type
  else if eq_str operation_type "update" || eq_str operation_type "replace" then
    update_redshift_role redshift_cursor full_document ;;
    update_oracle_role oracle_cursor full_document operation_type
  else if eq_str operation_type "delete" then
    update_oracle_role oracle_cursor document_key operation_type
  else print ("Unsupported operation: " ++ py_str operation_type).

(** The body of the [try] block of [lambda_handler] (lines 142-149). *)
Definition process_records (event : value) : M unit :=
  print "processing records" ;;
  events <- get event "events" (VList []) ;;
  records <- iterate events ;;
  for_each records (fun record =>
    print "processing record" ;;
    print (py_str record) ;;
    process_event record Redshift Oracle) ;;
  db_call Redshift Commit ;;
  db_call Oracle Commit.

(** The [except Exception as e] block (lines 151-153). *)
Definition on_error (e : exn) : M unit :=
  print ("ERROR during processing: " ++ exn_text e) ;;
  db_call Redshift Rollback ;;
  db_call Oracle Rollback.

(** The [finally] block (lines 155-159). *)
Definition close_all : M unit :=
  db_call Redshift CloseCursor ;;
  db_call Redshift CloseConnection ;;
  db_call Oracle CloseCursor ;;
  db_call Oracle CloseConnection ;;
  print "Connections closed.".

(** Lines 117-139 of [lambda_handler]: both secrets, then one connection
    and one cursor per store, all of it before the [try] statement. *)
Definition open_connections : M unit :=
  redshift_secret <- get_secret "RedshiftDEV" ;;
  oracle_secret <- get_secret "Oracle-DB-AMC" ;;
  dbname <- subscript redshift_secret "dbname" ;;
  user <- subscript redshift_secret "username" ;;
  password <- subscript redshift_secret "password" ;;
  host <- subscript redshift_secret "host" ;;
  port <- subscript redshift_secret "port" ;;
  db_connect Redshift [ ("dbname", dbname); ("user", user); ("password", password);
                        ("host", host); ("port", port) ] ;;
  open_cursor Redshift ;;
  ora_user <- subscript oracle_secret "username" ;;
  ora_password <- subscript oracle_secret "password" ;;
  ora_port <- subscript oracle_secret "port" ;;
  service_name <- subscript oracle_secret "dbname" ;;
  db_connect Oracle [ ("user", ora_user); ("password", ora_password);
                      ("host", VStr "LVEXACCT-SCAN"); ("port", ora_port);
                      ("service_name", service_name) ] ;;
  open_cursor Oracle.

Definition lambda_handler (event context : value) : M value :=
  open_connections ;;
  try_except_finally (process_records event) on_error close_all ;;
  ret (VStr "OK").

End Program.

Definition initial_world : world := {| log := []; rowcount := fun _ => -1 |}.

(** ** Observing a run *)

(** The effects a computation adds to the log of the world it starts in. *)
Definition effects_of {A : Type} (m : M A) (w : world) : list effect :=
  skipn (length (log w)) (log (snd (m w))).

(** The driver calls among some effects, and those made on one store. *)
Definition db_calls (l : list effect) : list (store * call) :=
  flat_map (fun e => match e with Call s c => [(s, c)] | _ => [] end) l.

Definition calls_on (s : store) (l : list effect) : list call :=
  flat_map (fun e => match e with
                     | Call s' c => if store_eqb s' s then [c] else []
                     | _ => []
                     end) l.

(** The identifier [extract_id] computes for a document; it touches
    nothing, so any world will do. *)
Definition canonical_id (doc : dict) : value :=
  match fst (extract_id (VDict doc) initial_world) with
  | Normal id => id
  | Raised _ => VNone
  end.

(** The test file's mocks: both secrets are found, both connections open,
    and every cursor reports [rowcount = 1]. *)
Definition mock_secret (name : string) : value + exn :=
  if String.eqb name "RedshiftDEV" then
    inl (VDict [ ("dbname", VStr "mockdb"); ("username", VStr "mockuser");
                 ("password", VStr "mockpass"); ("host", VStr "localhost");
                 ("port", VInt 5432) ])
  else
    inl (VDict [ ("dbname", VStr "mockservice"); ("username", VStr "oracleuser");
                 ("password", VStr "oraclepass"); ("host", VStr "localhost");
                 ("port", VInt 1521) ]).

Definition mock_env : environment :=
  {| secret_value := mock_secret;
     connect := fun _ _ => None;
     respond := fun _ _ _ => Done 1 |}.

Definition sample_doc : dict :=
  [ ("_id", VDict [("$oid", VStr "64a7f8e2c9e77b0012345678")]);
    ("role_id", VStr "admin");
    ("role_name", VStr "Administrator");
    ("role_description", VStr "Full access");
    ("role_status", VStr "active");
    ("tag", VStr "core");
    ("category", VStr "system");
    ("tooltip", VStr "Admin role");
    ("create_date", VStr "2023-07-01T12:00:00Z");
    ("last_update_date", VStr "2023-07-01T12:00:00Z") ].

Definition sample_doc_key : dict := [ ("role_id", VStr "admin") ].

Definition change_event (operation_type : string) (full_document document_key : dict)
    : value :=
  VDict [ ("event", VDict [ ("operationType", VStr operation_type);
                            ("fullDocument", VDict full_document);
                            ("documentKey", VDict document_key) ]) ].

Definition batch (records : list value) : value := VDict [ ("events", VList records) ].

(** An environment like [mock_env] whose Redshift cursor raises on every
    [execute]. *)
Definition failing_env : environment :=
  {| secret_value := mock_secret;
     connect := fun _ _ => None;
     respond := fun _ s c =>
       match s, c with
       | Redshift, Execute _ _ => Fails (Exn "DatabaseError" "relation does not exist")
       | _, _ => Done 1
       end |}.

(** An environment like [mock_env] in which the Oracle secret cannot be
    retrieved. *)
Definition no_oracle_secret_env : environment :=
  {| secret_value := fun name =>
       if String.eqb name "Oracle-DB-AMC"
       then inr (Exn "ClientError" "ResourceNotFoundException")
       else mock_secret name;
     connect := fun _ _ => None;
     respond := fun _ _ _ => Done 1 |}.

(** Three records: a complete insert, an insert whose document has no
    [_id], and an event of an unknown kind. *)
Definition mixed_records : list value :=
  [ change_event "insert" sample_doc sample_doc_key;
    change_event "insert" [ ("role_id", VStr "admin") ] sample_doc_key;
    change_event "unknown" sample_doc sample_doc_key ].

(** ** Vocabulary of the statements *)

Definition insert_call (doc : dict) : call :=
  Execute insert_sql
    (Positional [ canonical_id doc; VStr (json_dumps (VDict doc));
                  dict_get doc "last_update_date" VNone ]).

Definition update_call (doc : dict) : call :=
  Execute update_sql
    (Positional [ VStr (json_dumps (VDict doc));
                  dict_get doc "last_update_date" VNone; canonical_id doc ]).

Definition delete_call (role_id : value) : call :=
  Execute delete_sql (Named [ ("id", role_id) ]).

(** [operation_type in ['insert', 'update', 'replace']] *)
Definition is_upsert_kind (operation_type : value) : bool :=
  eq_str operation_type "insert" || eq_str operation_type "update"
  || eq_str operation_type "replace".

(** The computation always leaves the log it found as a prefix of the log
    it returns. *)
Definition grows {A : Type} (m : M A) : Prop :=
  forall w, exists delta, log (snd (m w)) = (log w ++ delta)%list.

(** The dict [update_oracle_role] binds to the MERGE statement. *)
Definition merge_params (doc : dict) : dict :=
  [ ("role_id", dict_get doc "role_id" VNone);
    ("role_name", dict_get doc "role_name" VNone);
    ("role_description", dict_get doc "role_description" VNone);
    ("role_status", dict_get doc "role_status" VNone);
    ("tag", dict_get doc "tag" VNone);
    ("category", dict_get doc "category" VNone);
    ("tooltip", dict_get doc "tooltip" VNone);
    ("creator_id", VStr system_identity);
    ("create_date", dict_get doc "create_date" VNone);
    ("last_updater_id", VStr system_identity);
    ("last_update_date", dict_get doc "last_update_date" VNone) ].

Definition merge_call (doc : dict) : call :=
  Execute merge_sql (Named (merge_params doc)).

(** The decision table of the config store, as the statements it leads
    to: nothing without a role_id, a DELETE for a soft-deleted document or
    a delete event, a MERGE for the other insert, update and replace
    events. *)
Definition config_action (doc : dict) (operation_type : value) : list call :=
  let role_id := dict_get doc "role_id" VNone in
  if truthy role_id then
    if truthy (dict_get doc "is_deleted" (VBool false)) then [delete_call role_id]
    else if is_upsert_kind operation_type then [merge_call doc]
    else if eq_str operation_type "delete" then [delete_call role_id]
    else []
  else [].

Definition is_execute (c : call) : bool :=
  match c with
  | Execute _ _ => true
  | _ => false
  end.

(** ** Reading a change-event record *)

Definition is_dict (v : value) : bool :=
  match v with
  | VDict _ => true
  | _ => false
  end.

Definition as_dict (v : value) : dict :=
  match v with
  | VDict d => d
  | _ => []
  end.

(** [record.get('event', {})] and the three entries [process_event] reads
    from it. *)
Definition event_data_of (record : value) : dict :=
  as_dict (dict_get (as_dict record) "event" (VDict [])).

Definition operation_type_of (record : value) : value :=
  dict_get (event_data_of record) "operationType" VNone.

Definition full_document_of (record : value) : dict :=
  as_dict (dict_get (event_data_of record) "fullDocument" (VDict [])).

Definition document_key_of (record : value) : dict :=
  as_dict (dict_get (event_data_of record) "documentKey" (VDict [])).

(** A record shaped like a change event: a dict whose ['event'] is a dict
    whose ['fullDocument'] and ['documentKey'] are dicts (each may be
    missing; the defaults are empty dicts). *)
Definition well_shaped (record : value) : bool :=
  is_dict record
  && is_dict (dict_get (as_dict record) "event" (VDict []))
  && is_dict (dict_get (event_data_of record) "fullDocument" (VDict []))
  && is_dict (dict_get (event_data_of record) "documentKey" (VDict [])).

(** What one loop iteration over [record] is seen to do, given the effects
    [d] it added to the log. *)
Definition event_outcome (record : value) (d : list effect) : Prop :=
  let operation_type := operation_type_of record in
  let doc := full_document_of record in
  let key := document_key_of record in
  let routed := if eq_str operation_type "delete" then key else doc in
  (* an unrecognised kind: no driver call, one warning *)
  (is_upsert_kind operation_type = false -> eq_str operation_type "delete" = false ->
   db_calls d = []
   /\ In (Print ("Unsupported operation: " ++ py_str operation_type)) d)
  (* a delete never reaches Redshift *)
  /\ (eq_str operation_type "delete" = true -> calls_on Redshift d = [])
  (* no canonical id: Redshift is skipped with a warning *)
  /\ (is_upsert_kind operation_type = true -> truthy (canonical_id doc) = false ->
      calls_on Redshift d = []
      /\ (In (Print "Missing _id for insert.") d
          \/ In (Print "Missing _id for update.") d))
  (* a canonical id: the Redshift write is made *)
  /\ (eq_str operation_type "insert" = true -> truthy (canonical_id doc) = true ->
      calls_on Redshift d = [insert_call doc])
  /\ (eq_str operation_type "update" = true \/ eq_str operation_type "replace" = true ->
      truthy (canonical_id doc) = true ->
      calls_on Redshift d = [update_call doc]
      \/ calls_on Redshift d = [update_call doc; insert_call doc])
  (* no role_id: Oracle is skipped with a warning *)
  /\ (is_upsert_kind operation_type = true \/ eq_str operation_type "delete" = true ->
      truthy (dict_get routed "role_id" VNone) = false ->
      calls_on Oracle d = []
      /\ In (Print "Missing role_id for Oracle operation.") d)
  (* a role_id: the one Oracle statement is made, a MERGE for an insert,
     update or replace of a document that is not soft-deleted, a DELETE
     otherwise *)
  /\ (is_upsert_kind operation_type = true \/ eq_str operation_type "delete" = true ->
      truthy (dict_get routed "role_id" VNone) = true ->
      calls_on Oracle d
      = [ if is_upsert_kind operation_type
             && negb (truthy (dict_get routed "is_deleted" (VBool false)))
          then merge_call routed
          else delete_call (dict_get routed "role_id" VNone) ]).

(** An environment whose cursors and connections never raise. *)
Definition never_fails (env : environment) : Prop :=
  forall history s c, exists n, respond env history s c = Done n.

(** ** Kinds of effects *)

(** Every effect the computation adds to the log satisfies [P]. *)
Definition emits_only (P : effect -> Prop) {A : Type} (m : M A) : Prop :=
  forall w, exists delta, log (snd (m w)) = (log w ++ delta)%list /\ Forall P delta.

(** A print, or one of the four statements on the store it belongs to. *)
Definition statement_effect (e : effect) : Prop :=
  match e with
  | Print _ => True
  | Call Redshift (Execute sql _) => sql = insert_sql \/ sql = update_sql
  | Call Oracle (Execute sql _) => sql = merge_sql \/ sql = delete_sql
  | _ => False
  end.

(** What the [try] body may add: statements, prints and commits. *)
Definition try_body_effect (e : effect) : Prop :=
  match e with
  | Call _ Commit => True
  | _ => statement_effect e
  end.

(** What the [except] block may add: prints and rollbacks. *)
Definition handler_effect (e : effect) : Prop :=
  match e with
  | Print _ | Call _ Rollback => True
  | _ => False
  end.

(** What the set-up may add: anything but a driver call. *)
Definition setup_effect (e : effect) : Prop :=
  match e with
  | Call _ _ => False
  | _ => True
  end.

(** What a whole run may add: the Oracle connection is asked for the fixed
    host, and each store only sees its own statements. *)
Definition run_effect (e : effect) : Prop :=
  match e with
  | Connect Oracle kwargs => lookup "host" kwargs = Some (VStr "LVEXACCT-SCAN")
  | Call Redshift (Execute sql _) => sql = insert_sql \/ sql = update_sql
  | Call Oracle (Execute sql _) => sql = merge_sql \/ sql = delete_sql
  | _ => True
  end.

Definition is_close (c : call) : bool :=
  match c with
  | CloseCursor | CloseConnection => true
  | _ => false
  end.

Definition is_rollback (c : call) : bool :=
  match c with
  | Rollback => true
  | _ => false
  end.

(** The close calls, and the rollback calls, among some effects. *)
Definition close_calls (l : list effect) : list (store * call) :=
  filter (fun p => is_close (snd p)) (db_calls l).

Definition rollback_calls (l : list effect) : list (store * call) :=
  filter (fun p => is_rollback (snd p)) (db_calls l).

(** One iteration of the loop of [lambda_handler] (lines 145-147). *)
Definition loop_body (env : environment) (record : value) : M unit :=
  print "processing record" ;;
  print (py_str record) ;;
  process_event env record Redshift Oracle.

(** The [try] body of [lambda_handler] up to, and without, the two commits
    (lines 142-147). *)
Definition records_loop (env : environment) (event : value) : M unit :=
  print "processing records" ;;
  events <- get event "events" (VList []) ;;
  records <- iterate events ;;
  for_each records (loop_body env).

(** The keys [lambda_handler] reads from the Redshift secret, in the order
    it reads them. *)
Definition redshift_secret_keys : list string :=
  [ "dbname"; "username"; "password"; "host"; "port" ].

Definition the_four_closes : list (store * call) :=
  [ (Redshift, CloseCursor); (Redshift, CloseConnection);
    (Oracle, CloseCursor); (Oracle, CloseConnection) ].

(** An environment like [mock_env] in which closing the Redshift cursor
    raises. *)
Definition failing_close_env : environment :=
  {| secret_value := mock_secret;
     connect := fun _ _ => None;
     respond := fun _ s c =>
       match s, c with
       | Redshift, CloseCursor => Fails (Exn "InterfaceError" "cursor already closed")
       | _, _ => Done 1
       end |}.

(** An environment like [mock_env] in which the Oracle commit raises. *)
Definition failing_commit_env : environment :=
  {| secret_value := mock_secret;
     connect := fun _ _ => None;
     respond := fun _ s c =>
       match s, c with
       | Oracle, Commit => Fails (Exn "DatabaseError" "ORA-02091")
       | _, _ => Done 1
       end |}.

(** An environment like [mock_env] in which the Redshift secret cannot be
    retrieved. *)
Definition no_redshift_secret_env : environment :=
  {| secret_value := fun name =>
       if String.eqb name "RedshiftDEV"
       then inr (Exn "ClientError" "ResourceNotFoundException")
       else mock_secret name;
     connect := fun _ _ => None;
     respond := fun _ _ _ => Done 1 |}.

(** An environment like [mock_env] whose Redshift secret has no ['host']
    and no ['port'] entry. *)
Definition short_secret_env : environment :=
  {| secret_value := fun name =>
       if String.eqb name "RedshiftDEV"
       then inl (VDict [ ("dbname", VStr "mockdb"); ("username", VStr "mockuser");
                         ("password", VStr "mockpass") ])
       else mock_secret name;
     connect := fun _ _ => None;
     respond := fun _ _ _ => Done 1 |}.

Definition no_connect (e : effect) : Prop :=
  match e with
  | Connect _ _ => False
  | _ => True
  end.

(** The values a [for] loop can iterate over. *)
Definition is_iterable (v : value) : bool :=
  match v with
  | VList _ | VDict _ | VStr _ => true
  | _ => false
  end.

(** ** Basic facts *)

Lemma skipn_log_app (l delta : list effect) :
  skipn (length l) (l ++ delta)%list = delta.
Proof.
  induction l as [| e l IH]; simpl; auto.
Qed.

Lemma str_int_nonempty (z : Z) : str_int z <> "".
Proof.
  unfold str_int.
  destruct (Z.to_int z) as [u | u]; destruct u; simpl; discriminate.
Qed.

Lemma py_str_nonempty (v : value) : truthy v = true -> py_str v <> "".
Proof.
  destruct v as [| b | z | s | items | entries]; simpl; intro H;
    try discriminate.
  - destruct b; discriminate.
  - apply str_int_nonempty.
  - destruct s; [discriminate H | discriminate].
Qed.

Lemma falsy_values (v : value) :
  truthy v = false ->
  v = VNone \/ v = VBool false \/ v = VInt 0 \/ v = VStr "" \/ v = VList []
  \/ v = VDict [].
Proof.
  destruct v as [| b | z | s | items | entries]; simpl; intro H.
  - auto.
  - subst b; auto.
  - apply negb_false_iff, Z.eqb_eq in H; subst z; auto.
  - destruct s; [auto 6 | discriminate H].
  - destruct items; [auto 6 | discriminate H].
  - destruct entries; [auto 7 | discriminate H].
Qed.

Lemma extract_id_run (doc : dict) (w : world) :
  extract_id (VDict doc) w = (Normal (canonical_id doc), w).
Proof.
  unfold canonical_id, extract_id, bind, get, ret; simpl.
  destruct (dict_get doc "_id" VNone) as [| b | z | s | items | inner] eqn:E;
    simpl; try reflexivity.
  unfold contains_key.
  destruct (lookup "$oid" inner) eqn:L; simpl; reflexivity.
Qed.

Lemma falsy_not_wrapped (raw : value) : truthy raw = false -> is_wrapped raw = false.
Proof.
  intro H; destruct (falsy_values raw H) as [-> | [-> | [-> | [-> | [-> | ->]]]]];
    reflexivity.
Qed.

(** ** [extract_id] *)

(** C4, as amended.  [extract_id] on a document (a dict), in any world and
    without touching it:
    - an [_id] that is a dict holding the key ['$oid'] gives the value stored
      under ['$oid'], unchanged (so a string is returned as that string);
    - any other truthy [_id] gives [str(_id)];
    - a falsy [_id] ([None], [''], and also [0], [False], [[]], [{}]) gives
      [None];
    - a missing [_id] gives [None]. *)
Theorem extract_id_by_cases (doc : dict) (w : world) :
  (forall inner V,
      lookup "_id" doc = Some (VDict inner) -> lookup "$oid" inner = Some V ->
      extract_id (VDict doc) w = (Normal V, w))
  /\ (forall raw,
      lookup "_id" doc = Some raw -> is_wrapped raw = false -> truthy raw = true ->
      extract_id (VDict doc) w = (Normal (VStr (py_str raw)), w))
  /\ (forall raw,
      lookup "_id" doc = Some raw -> truthy raw = false ->
      extract_id (VDict doc) w = (Normal VNone, w))
  /\ (lookup "_id" doc = None -> extract_id (VDict doc) w = (Normal VNone, w)).
Proof.
  unfold extract_id, bind, get, ret, dict_get.
  repeat split.
  - intros inner V H1 H2. rewrite H1. simpl. unfold contains_key.
    rewrite H2. reflexivity.
  - intros raw H1 H2 H3. rewrite H1, H2, H3. reflexivity.
  - intros raw H1 H3. rewrite H1, (falsy_not_wrapped raw H3), H3. reflexivity.
  - intros H1. rewrite H1. reflexivity.
Qed.

Lemma extract_id_by_cases_witness :
  extract_id (VDict [("_id", VDict [("$oid", VStr "12345")])]) initial_world
    = (Normal (VStr "12345"), initial_world)
  /\ extract_id (VDict [("_id", VStr "67890")]) initial_world
    = (Normal (VStr "67890"), initial_world)
  /\ extract_id (VDict [("_id", VInt 42)]) initial_world
    = (Normal (VStr "42"), initial_world)
  /\ extract_id (VDict [("_id", VStr "")]) initial_world
    = (Normal VNone, initial_world)
  /\ extract_id (VDict []) initial_world = (Normal VNone, initial_world).
Proof.
  refine (conj _ (conj _ (conj _ (conj _ _)))).
  - apply (proj1 (extract_id_by_cases [("_id", VDict [("$oid", VStr "12345")])]
                    initial_world) [("$oid", VStr "12345")] (VStr "12345"));
      reflexivity.
  - apply (proj1 (proj2 (extract_id_by_cases [("_id", VStr "67890")] initial_world))
             (VStr "67890")); reflexivity.
  - apply (proj1 (proj2 (extract_id_by_cases [("_id", VInt 42)] initial_world))
             (VInt 42)); reflexivity.
  - apply (proj1 (proj2 (proj2 (extract_id_by_cases [("_id", VStr "")] initial_world)))
             (VStr "")); reflexivity.
  - apply (proj2 (proj2 (proj2 (extract_id_by_cases [] initial_world))));
      reflexivity.
Defined.

(** C4, as stated, fails: a wrapped identifier whose inner value is the
    number 5 comes back as that number, not as the string ['5']; and the
    bare identifier [0], which is not missing, null or the empty string,
    gives [None] instead of ['0']. *)
Lemma extract_id_not_always_str :
  extract_id (VDict [("_id", VDict [("$oid", VInt 5)])]) initial_world
    = (Normal (VInt 5), initial_world)
  /\ VInt 5 <> VStr (py_str (VInt 5))
  /\ extract_id (VDict [("_id", VInt 0)]) initial_world
    = (Normal VNone, initial_world)
  /\ VNone <> VStr (py_str (VInt 0)).
Proof.
  repeat split; discriminate.
Qed.

(** C8, as amended.  When the [_id] of a document is not a ['$oid'] wrapper,
    or is a wrapper around a non-empty string, an extraction that returns
    something other than [None] returns a non-empty string. *)
Theorem extract_id_nonempty (doc : dict) (w w' : world) (id : value) :
  (is_wrapped (dict_get doc "_id" VNone) = false
   \/ exists inner s, dict_get doc "_id" VNone = VDict inner
                      /\ lookup "$oid" inner = Some (VStr s) /\ s <> "") ->
  extract_id (VDict doc) w = (Normal id, w') ->
  id <> VNone ->
  exists s, id = VStr s /\ s <> "".
Proof.
  unfold extract_id, bind, get, ret.
  intros [Hbare | (inner & s & Hraw & Hoid & Hs)] Hrun Hid.
  - rewrite Hbare in Hrun.
    destruct (truthy (dict_get doc "_id" VNone)) eqn:T.
    + injection Hrun as <- _. eexists; split; [reflexivity |].
      now apply py_str_nonempty.
    + injection Hrun as <- _. now elim Hid.
  - rewrite Hraw in Hrun. simpl in Hrun. unfold contains_key in Hrun.
    rewrite Hoid in Hrun.
    injection Hrun as <- _. now exists s.
Qed.

Lemma extract_id_nonempty_witness :
  exists s, VStr "64a7f8e2c9e77b0012345678" = VStr s /\ s <> "".
Proof.
  apply (extract_id_nonempty sample_doc initial_world initial_world).
  - right. exists [("$oid", VStr "64a7f8e2c9e77b0012345678")].
    exists "64a7f8e2c9e77b0012345678".
    repeat split; discriminate.
  - reflexivity.
  - discriminate.
Defined.

(** C8, as stated, fails: on a wrapper around the empty string the
    extraction returns [''], which is a value, not [None], and is empty. *)
Lemma extract_id_wrapped_empty :
  extract_id (VDict [("_id", VDict [("$oid", VStr "")])]) initial_world
    = (Normal (VStr ""), initial_world)
  /\ VStr "" <> VNone.
Proof.
  split; [reflexivity | discriminate].
Qed.

(** ** The log only grows *)

Create HintDb grows.

Lemma grows_ret {A : Type} (a : A) : grows (ret a).
Proof. intro w; exists []; simpl; now rewrite app_nil_r. Qed.

Lemma grows_raise {A : Type} (e : exn) : grows (@raise A e).
Proof. intro w; exists []; simpl; now rewrite app_nil_r. Qed.

Lemma grows_bind {A B : Type} (m : M A) (k : A -> M B) :
  grows m -> (forall a, grows (k a)) -> grows (bind m k).
Proof.
  intros Hm Hk w. unfold bind.
  destruct (Hm w) as [d1 H1]. destruct (m w) as [[a | e] w1]; simpl in *.
  - destruct (Hk a w1) as [d2 H2]. exists (d1 ++ d2)%list.
    now rewrite H2, H1, app_assoc.
  - now exists d1.
Qed.

Lemma grows_emit (e : effect) : grows (emit e).
Proof. intro w; now exists [e]. Qed.

Lemma grows_print (line : string) : grows (print line).
Proof. apply grows_emit. Qed.

Lemma grows_get (v : value) (key : string) (default : value) :
  grows (get v key default).
Proof. destruct v; simpl; (apply grows_ret || apply grows_raise). Qed.

Lemma grows_subscript (v : value) (key : string) : grows (subscript v key).
Proof.
  destruct v; simpl; try apply grows_raise.
  destruct (lookup key entries); [apply grows_ret | apply grows_raise].
Qed.

Lemma grows_iterate (v : value) : grows (iterate v).
Proof. destruct v; simpl; (apply grows_ret || apply grows_raise). Qed.

Lemma grows_db_call (env : environment) (s : store) (c : call) :
  grows (db_call env s c).
Proof.
  intro w. exists [Call s c]. unfold db_call.
  destruct (respond env (log w) s c); [destruct c |]; reflexivity.
Qed.

Lemma grows_read_rowcount (cursor : store) : grows (read_rowcount cursor).
Proof. intro w; exists []; simpl; now rewrite app_nil_r. Qed.

Lemma grows_if {A : Type} (b : bool) (m1 m2 : M A) :
  grows m1 -> grows m2 -> grows (if b then m1 else m2).
Proof. now destruct b. Qed.

Lemma grows_for_each {A : Type} (items : list A) (body : A -> M unit) :
  (forall a, grows (body a)) -> grows (for_each items body).
Proof.
  intro Hb. induction items as [| a rest IH]; simpl.
  - apply grows_ret.
  - apply grows_bind; auto.
Qed.

Lemma grows_try (body : M unit) (handler : exn -> M unit) (final : M unit) :
  grows body -> (forall e, grows (handler e)) -> grows final ->
  grows (try_except_finally body handler final).
Proof.
  intros Hb Hh Hf w. unfold try_except_finally.
  destruct (Hb w) as [d1 H1]. destruct (body w) as [[[] | e] w1]; simpl in H1.
  - destruct (Hf w1) as [d2 H2]. exists (d1 ++ d2)%list.
    destruct (final w1) as [[[] | e] w2]; simpl in *;
      now rewrite H2, H1, app_assoc.
  - destruct (Hh e w1) as [d2 H2].
    destruct (handler e w1) as [[[] | e'] w2]; simpl in H2;
      destruct (Hf w2) as [d3 H3]; exists (d1 ++ d2 ++ d3)%list;
      destruct (final w2) as [[[] | e''] w3]; simpl in *;
      now rewrite H3, H2, H1, <- !app_assoc.
Qed.

#[export] Hint Resolve grows_ret grows_raise grows_emit grows_print grows_get
  grows_subscript grows_iterate grows_db_call grows_read_rowcount : grows.
#[export] Hint Extern 2 (grows (bind _ _)) =>
  apply grows_bind; [| intro] : grows.
#[export] Hint Extern 2 (grows (if _ then _ else _)) => apply grows_if : grows.
#[export] Hint Extern 2 (grows (match ?x with _ => _ end)) => destruct x : grows.

Ltac grows_auto := auto 40 with grows.

Lemma grows_extract_id (doc : value) : grows (extract_id doc).
Proof. unfold extract_id. grows_auto. Qed.

Lemma grows_insert_redshift_role env cursor role :
  grows (insert_redshift_role env cursor role).
Proof.
  unfold insert_redshift_role, execute.
  pose proof grows_extract_id. grows_auto.
Qed.

Lemma grows_update_redshift_role env cursor role :
  grows (update_redshift_role env cursor role).
Proof.
  unfold update_redshift_role, execute.
  pose proof grows_extract_id. pose proof grows_insert_redshift_role.
  grows_auto.
Qed.

Lemma grows_update_oracle_role env cursor role operation_type :
  grows (update_oracle_role env cursor role operation_type).
Proof. unfold update_oracle_role, execute. grows_auto. Qed.

Lemma grows_process_event env record redshift_cursor oracle_cursor :
  grows (process_event env record redshift_cursor oracle_cursor).
Proof.
  unfold process_event.
  pose proof grows_insert_redshift_role. pose proof grows_update_redshift_role.
  pose proof grows_update_oracle_role. grows_auto.
Qed.

#[export] Hint Resolve grows_extract_id grows_insert_redshift_role
  grows_update_redshift_role grows_update_oracle_role grows_process_event : grows.

Lemma grows_process_records env event : grows (process_records env event).
Proof.
  unfold process_records.
  apply grows_bind; [grows_auto | intros _].
  apply grows_bind; [grows_auto | intros events].
  apply grows_bind; [grows_auto | intros records].
  apply grows_bind; [| grows_auto].
  apply grows_for_each. intro. grows_auto.
Qed.

Lemma grows_on_error env e : grows (on_error env e).
Proof. unfold on_error. grows_auto. Qed.

Lemma grows_close_all env : grows (close_all env).
Proof. unfold close_all. grows_auto. Qed.

(** ** Effects of a run *)

Lemma effects_of_grows {A : Type} (m : M A) (w : world) :
  grows m -> log (snd (m w)) = (log w ++ effects_of m w)%list.
Proof.
  intro H. destruct (H w) as [d Hd]. unfold effects_of.
  now rewrite Hd, skipn_log_app.
Qed.

Lemma effects_of_bind {A B : Type} (m : M A) (k : A -> M B) (w : world) :
  grows m -> (forall a, grows (k a)) ->
  effects_of (bind m k) w
  = (effects_of m w ++ match m w with
                       | (Normal a, w1) => effects_of (k a) w1
                       | (Raised _, _) => []
                       end)%list.
Proof.
  intros Hm Hk. pose proof (effects_of_grows m w Hm) as H1.
  unfold effects_of at 1. unfold bind.
  destruct (m w) as [[a | e] w1]; simpl in *.
  - rewrite (effects_of_grows (k a) w1 (Hk a)), H1, <- app_assoc.
    now rewrite skipn_log_app.
  - now rewrite H1, skipn_log_app, app_nil_r.
Qed.

Lemma effects_of_silent {A : Type} (m : M A) (w : world) (r : outcome A) :
  m w = (r, w) -> effects_of m w = [].
Proof.
  intro H. unfold effects_of. rewrite H. simpl.
  rewrite <- (app_nil_r (log w)) at 2. apply skipn_log_app.
Qed.

Lemma effects_of_result {A : Type} (m : M A) (w w' : world) (r : outcome A)
    (delta : list effect) :
  m w = (r, w') -> log w' = (log w ++ delta)%list -> effects_of m w = delta.
Proof.
  intros H L. unfold effects_of. rewrite H. simpl.
  rewrite L. apply skipn_log_app.
Qed.

Lemma calls_on_app (s : store) (l1 l2 : list effect) :
  calls_on s (l1 ++ l2) = (calls_on s l1 ++ calls_on s l2)%list.
Proof. apply flat_map_app. Qed.

Lemma db_calls_app (l1 l2 : list effect) :
  db_calls (l1 ++ l2) = (db_calls l1 ++ db_calls l2)%list.
Proof. apply flat_map_app. Qed.

(** What [execute] followed by a [print] does, in any environment. *)
Lemma execute_print_run env cursor sql params line (w : world) :
  exists r w',
    (execute env cursor sql params ;; print line) w = (r, w')
    /\ log w' = (log w ++ Call cursor (Execute sql params)
                 :: match respond env (log w) cursor (Execute sql params) with
                    | Done _ => [Print line]
                    | Fails _ => []
                    end)%list
    /\ (r = Normal tt
        <-> exists n, respond env (log w) cursor (Execute sql params) = Done n).
Proof.
  unfold bind, execute, db_call, print, emit.
  destruct (respond env (log w) cursor (Execute sql params)) as [n | e];
    do 2 eexists; (split; [reflexivity |]); simpl.
  - split; [now rewrite <- app_assoc | split; eauto].
  - split; [reflexivity | split; [discriminate | intros [n H]; discriminate]].
Qed.

Lemma db_calls_execute_print env cursor sql params line (w : world) :
  db_calls (effects_of (execute env cursor sql params ;; print line) w)
  = [(cursor, Execute sql params)].
Proof.
  destruct (execute_print_run env cursor sql params line w) as (r & w' & H & L & _).
  rewrite (effects_of_result _ _ _ _ _ H L). simpl.
  now destruct (respond env (log w) cursor (Execute sql params)).
Qed.

Lemma effects_of_print (line : string) (w : world) :
  effects_of (print line) w = [Print line].
Proof. unfold effects_of; simpl. apply skipn_log_app. Qed.

Lemma effects_of_ret {A : Type} (a : A) (w : world) : effects_of (ret a) w = [].
Proof. now apply effects_of_silent with (r := Normal a). Qed.

Lemma effects_of_raise {A : Type} (e : exn) (w : world) :
  effects_of (@raise A e) w = [].
Proof. now apply effects_of_silent with (r := Raised e). Qed.

Lemma db_calls_print (line : string) (w : world) :
  db_calls (effects_of (print line) w) = [].
Proof. now rewrite effects_of_print. Qed.

(** The statements [update_oracle_role] issues follow the decision table,
    whatever the environment answers. *)
Lemma update_oracle_role_calls env cursor (doc : dict) (operation_type : value)
    (w : world) :
  db_calls (effects_of (update_oracle_role env cursor (VDict doc) operation_type) w)
  = map (pair cursor) (config_action doc operation_type).
Proof.
  unfold update_oracle_role, config_action, is_upsert_kind.
  unfold get, bind at 1, ret.
  destruct (truthy (dict_get doc "role_id" VNone)); simpl.
  2: { apply db_calls_print. }
  unfold bind at 1.
  destruct (truthy (dict_get doc "is_deleted" (VBool false))); simpl.
  - rewrite andb_false_r, orb_true_r. apply db_calls_execute_print.
  - rewrite andb_true_r, orb_false_r.
    destruct (eq_str operation_type "insert" || eq_str operation_type "update"
              || eq_str operation_type "replace").
    + apply db_calls_execute_print.
    + destruct (eq_str operation_type "delete").
      * apply db_calls_execute_print.
      * exact (f_equal db_calls (effects_of_ret tt w)).
Qed.

Lemma eq_str_true (v : value) (literal : string) :
  eq_str v literal = true -> v = VStr literal.
Proof.
  destruct v; simpl; try discriminate.
  intro H. apply String.eqb_eq in H. now subst.
Qed.

Lemma store_eqb_refl (s : store) : store_eqb s s = true.
Proof. now destruct s. Qed.

Lemma effects_of_execute env cursor sql params (w : world) :
  effects_of (execute env cursor sql params) w = [Call cursor (Execute sql params)].
Proof.
  unfold effects_of, execute, db_call.
  destruct (respond env (log w) cursor (Execute sql params)); simpl;
    apply skipn_log_app.
Qed.

Lemma effects_of_read_rowcount {A : Type} cursor (k : Z -> M A) (w : world) :
  effects_of (n <- read_rowcount cursor ;; k n) w = effects_of (k (rowcount w cursor)) w.
Proof. reflexivity. Qed.

Lemma rowcount_set_rowcount (s : store) (n : Z) (w : world) :
  rowcount (set_rowcount s n w) s = n.
Proof. unfold set_rowcount; simpl. now rewrite store_eqb_refl. Qed.

(** The statements of the two Redshift functions, whatever the environment
    answers. *)
Lemma insert_redshift_role_calls env cursor (doc : dict) (w : world) :
  db_calls (effects_of (insert_redshift_role env cursor (VDict doc)) w)
  = if truthy (canonical_id doc) then [(cursor, insert_call doc)] else [].
Proof.
  unfold insert_redshift_role. unfold effects_of, bind at 1.
  rewrite extract_id_run.
  destruct (truthy (canonical_id doc)); simpl.
  - apply db_calls_execute_print.
  - apply db_calls_print.
Qed.

Lemma update_redshift_role_calls env cursor (doc : dict) (w : world) :
  db_calls (effects_of (update_redshift_role env cursor (VDict doc)) w)
  = if truthy (canonical_id doc) then
      (cursor, update_call doc)
      :: match respond env (log w) cursor (update_call doc) with
         | Done n => if n =? 0 then [(cursor, insert_call doc)] else []
         | Fails _ => []
         end
    else [].
Proof.
  unfold update_redshift_role. unfold effects_of, bind at 1.
  rewrite extract_id_run.
  destruct (truthy (canonical_id doc)) eqn:T; simpl.
  2: { apply db_calls_print. }
  unfold get, bind at 1, ret. fold (update_call doc).
  change (db_calls (effects_of
            (execute env cursor update_sql
               (Positional [VStr (json_dumps (VDict doc));
                            dict_get doc "last_update_date" VNone; canonical_id doc]) ;;
             n <- read_rowcount cursor ;;
             if n =? 0 then insert_redshift_role env cursor (VDict doc)
             else print ("Updated Redshift role " ++ py_str (canonical_id doc))) w)
          = (cursor, update_call doc)
            :: match respond env (log w) cursor (update_call doc) with
               | Done n => if n =? 0 then [(cursor, insert_call doc)] else []
               | Fails _ => []
               end).
  rewrite effects_of_bind; [| apply grows_db_call | intro; grows_auto].
  rewrite effects_of_execute, db_calls_app. simpl. f_equal.
  unfold execute, db_call, update_call.
  destruct (respond env (log w) cursor _) as [n | e]; [| reflexivity].
  rewrite effects_of_read_rowcount, rowcount_set_rowcount.
  destruct (n =? 0).
  - (* the fallback passes the same guard on the same id *)
    now rewrite insert_redshift_role_calls, T.
  - apply db_calls_print.
Qed.

(** ** The config store *)

(** C3.  For a document with a role_id (one that passes the [if not
    role_id] guard), [update_oracle_role] with operation ['delete'], or with
    a set [is_deleted] flag and operation insert, update or replace, makes
    exactly one driver call: the DELETE bound to that role_id.  No MERGE
    is issued. *)
Theorem oracle_delete_is_hard_delete env cursor (doc : dict)
    (operation_type : value) (w : world) :
  truthy (dict_get doc "role_id" VNone) = true ->
  eq_str operation_type "delete" = true
  \/ (truthy (dict_get doc "is_deleted" (VBool false)) = true
      /\ is_upsert_kind operation_type = true) ->
  db_calls (effects_of (update_oracle_role env cursor (VDict doc) operation_type) w)
  = [(cursor, delete_call (dict_get doc "role_id" VNone))].
Proof.
  intros Hid Hop. rewrite update_oracle_role_calls.
  unfold config_action. rewrite Hid.
  destruct Hop as [Hdel | [Hflag _]].
  - apply eq_str_true in Hdel. subst operation_type.
    now destruct (truthy (dict_get doc "is_deleted" (VBool false))).
  - now rewrite Hflag.
Qed.

Lemma oracle_delete_is_hard_delete_witness :
  db_calls (effects_of (update_oracle_role mock_env Oracle
                          (VDict [("role_id", VStr "admin"); ("is_deleted", VBool true)])
                          (VStr "update")) initial_world)
  = [(Oracle, delete_call (VStr "admin"))]
  /\ db_calls (effects_of (update_oracle_role mock_env Oracle
                             (VDict sample_doc_key) (VStr "delete")) initial_world)
     = [(Oracle, delete_call (VStr "admin"))].
Proof.
  split.
  - apply (oracle_delete_is_hard_delete mock_env Oracle
             [("role_id", VStr "admin"); ("is_deleted", VBool true)] (VStr "update")
             initial_world); [reflexivity | right; split; reflexivity].
  - apply (oracle_delete_is_hard_delete mock_env Oracle sample_doc_key (VStr "delete")
             initial_world); [reflexivity | left; reflexivity].
Defined.

(** C7.  Whatever the role document, the operation and the environment,
    a MERGE issued by [update_oracle_role] binds both [creator_id] and
    [last_updater_id] to the constant ['americold_compass']. *)
Theorem merge_attribution_is_fixed env cursor (role operation_type : value)
    (w : world) (s : store) (params : dict) :
  In (s, Execute merge_sql (Named params))
     (db_calls (effects_of (update_oracle_role env cursor role operation_type) w)) ->
  lookup "creator_id" params = Some (VStr system_identity)
  /\ lookup "last_updater_id" params = Some (VStr system_identity).
Proof.
  destruct role as [| b | z | t | items | doc];
    try (erewrite effects_of_silent by reflexivity; now intros []).
  rewrite update_oracle_role_calls. unfold config_action.
  destruct (truthy (dict_get doc "role_id" VNone)); [| now intros []].
  destruct (truthy (dict_get doc "is_deleted" (VBool false)));
    [| destruct (is_upsert_kind operation_type);
       [| destruct (eq_str operation_type "delete")]];
    simpl; intro H; try contradiction; destruct H as [H | []];
    try discriminate H.
  injection H as _ <-. split; reflexivity.
Qed.

Lemma merge_attribution_is_fixed_witness :
  lookup "creator_id" (merge_params sample_doc) = Some (VStr system_identity)
  /\ lookup "last_updater_id" (merge_params sample_doc) = Some (VStr system_identity).
Proof.
  apply (merge_attribution_is_fixed mock_env Oracle (VDict sample_doc) (VStr "insert")
           initial_world Oracle).
  left. reflexivity.
Defined.

(** ** Routing of one event *)

Lemma calls_on_db_calls (s : store) (l : list effect) :
  calls_on s l = map snd (filter (fun p => store_eqb (fst p) s) (db_calls l)).
Proof.
  induction l as [| e l IH]; [reflexivity |].
  change (e :: l) with ([e] ++ l)%list.
  rewrite calls_on_app, db_calls_app, filter_app, map_app, IH. f_equal.
  destruct e as [| | | | s' c]; try reflexivity.
  simpl. now destruct (store_eqb s' s).
Qed.

Lemma filter_other_store (s s' : store) (l : list call) :
  store_eqb s' s = false ->
  filter (fun p => store_eqb (fst p) s) (map (pair s') l) = [].
Proof.
  intro H. induction l as [| c l IH]; simpl; [reflexivity |].
  now rewrite H.
Qed.

Lemma filter_same_store (s : store) (l : list call) :
  map snd (filter (fun p => store_eqb (fst p) s) (map (pair s) l)) = l.
Proof.
  induction l as [| c l IH]; simpl; [reflexivity |].
  rewrite store_eqb_refl. simpl. now rewrite IH.
Qed.

(** [update_oracle_role] on a value that is no dict raises before any
    effect. *)
Lemma update_oracle_role_effects_not_dict env cursor role operation_type w :
  (forall d, role <> VDict d) ->
  effects_of (update_oracle_role env cursor role operation_type) w = [].
Proof.
  intro H. destruct role; try (eapply effects_of_silent; reflexivity).
  now elim (H entries).
Qed.

Lemma update_oracle_role_other_store env role operation_type w :
  calls_on Redshift (effects_of (update_oracle_role env Oracle role operation_type) w)
  = [].
Proof.
  destruct role as [| b | z | t | items | doc];
    try (rewrite update_oracle_role_effects_not_dict; [reflexivity | discriminate]).
  rewrite calls_on_db_calls, update_oracle_role_calls.
  now rewrite filter_other_store.
Qed.

(** [process_event] on a record whose ['event'] entry is a dict (or is
    missing, which the default [{}] covers): the four-way branch on the
    operation type. *)
Lemma process_event_unfold env (r ev : dict) (w : world) :
  dict_get r "event" (VDict []) = VDict ev ->
  let operation_type := dict_get ev "operationType" VNone in
  let full_document := dict_get ev "fullDocument" (VDict []) in
  let document_key := dict_get ev "documentKey" (VDict []) in
  process_event env (VDict r) Redshift Oracle w
  = (if eq_str operation_type "insert" then
       insert_redshift_role env Redshift full_document ;;
       update_oracle_role env Oracle full_document operation_type
     else if eq_str operation_type "update" || eq_str operation_type "replace" then
       update_redshift_role env Redshift full_document ;;
       update_oracle_role env Oracle full_document operation_type
     else if eq_str operation_type "delete" then
       update_oracle_role env Oracle document_key operation_type
     else print ("Unsupported operation: " ++ py_str operation_type)) w.
Proof.
  intros H operation_type full_document document_key.
  unfold process_event, get, bind at 1, ret. rewrite H.
  unfold bind at 1. unfold bind at 1. unfold bind at 1.
  fold operation_type full_document document_key.
  destruct (eq_str operation_type "insert"); [reflexivity |].
  destruct (eq_str operation_type "update" || eq_str operation_type "replace");
    [reflexivity |].
  destruct (eq_str operation_type "delete"); reflexivity.
Qed.

Lemma effects_of_ext {A : Type} (m1 m2 : M A) (w : world) :
  m1 w = m2 w -> effects_of m1 w = effects_of m2 w.
Proof. unfold effects_of. now intros ->. Qed.

(** C6.  A delete event makes no call on Redshift at all; its only driver
    call is the DELETE on Oracle bound to the role_id of the event's
    documentKey (and not even that when the documentKey has no role_id). *)
Theorem delete_event_leaves_warehouse env (r ev key : dict) (w : world) :
  dict_get r "event" (VDict []) = VDict ev ->
  dict_get ev "operationType" VNone = VStr "delete" ->
  dict_get ev "documentKey" (VDict []) = VDict key ->
  let role_id := dict_get key "role_id" VNone in
  let effects := effects_of (process_event env (VDict r) Redshift Oracle) w in
  calls_on Redshift effects = []
  /\ db_calls effects
     = if truthy role_id then [(Oracle, delete_call role_id)] else [].
Proof.
  intros Hev Hop Hkey role_id effects.
  assert (E : effects
              = effects_of (update_oracle_role env Oracle (VDict key) (VStr "delete")) w).
  { subst effects. apply effects_of_ext.
    rewrite (process_event_unfold env r ev w Hev).
    rewrite Hop, Hkey. reflexivity. }
  rewrite E. split.
  - apply update_oracle_role_other_store.
  - rewrite update_oracle_role_calls. unfold config_action. fold role_id.
    destruct (truthy role_id); [| reflexivity].
    now destruct (truthy (dict_get key "is_deleted" (VBool false))).
Qed.

Lemma delete_event_leaves_warehouse_witness :
  let effects :=
    effects_of (process_event mock_env
                  (change_event "delete" [] sample_doc_key) Redshift Oracle)
               initial_world in
  calls_on Redshift effects = []
  /\ db_calls effects = [(Oracle, delete_call (VStr "admin"))].
Proof.
  apply (delete_event_leaves_warehouse mock_env
           [ ("event", VDict [ ("operationType", VStr "delete");
                               ("fullDocument", VDict []);
                               ("documentKey", VDict sample_doc_key) ]) ]
           [ ("operationType", VStr "delete"); ("fullDocument", VDict []);
             ("documentKey", VDict sample_doc_key) ]
           sample_doc_key initial_world); reflexivity.
Defined.

(** ** The warehouse *)

Lemma calls_on_of_db_calls (s : store) (l : list effect) (cs : list call) :
  db_calls l = map (pair s) cs -> calls_on s l = cs.
Proof.
  intro H. rewrite calls_on_db_calls, H. apply filter_same_store.
Qed.

Lemma calls_on_then_oracle env (m : M unit) role operation_type (w : world) :
  grows m ->
  calls_on Redshift
    (effects_of (m ;; update_oracle_role env Oracle role operation_type) w)
  = calls_on Redshift (effects_of m w).
Proof.
  intro Hm. rewrite effects_of_bind; [| assumption | intro; grows_auto].
  rewrite calls_on_app.
  destruct (m w) as [[[] | e] w1].
  - now rewrite update_oracle_role_other_store, app_nil_r.
  - apply app_nil_r.
Qed.

(** C2, as amended.  For an event whose fullDocument yields a canonical id:
    an update or replace event first attempts the UPDATE by id and issues
    the INSERT exactly when that UPDATE returned with [rowcount = 0]; an
    insert event issues the INSERT alone, with no UPDATE attempt.  No
    other call is made on Redshift. *)
Theorem warehouse_write_strategy env (r ev doc : dict) (w : world) :
  dict_get r "event" (VDict []) = VDict ev ->
  dict_get ev "fullDocument" (VDict []) = VDict doc ->
  truthy (canonical_id doc) = true ->
  let operation_type := dict_get ev "operationType" VNone in
  let issued :=
    calls_on Redshift (effects_of (process_event env (VDict r) Redshift Oracle) w) in
  (eq_str operation_type "update" = true \/ eq_str operation_type "replace" = true ->
   issued = update_call doc
            :: match respond env (log w) Redshift (update_call doc) with
               | Done n => if n =? 0 then [insert_call doc] else []
               | Fails _ => []
               end)
  /\ (eq_str operation_type "insert" = true -> issued = [insert_call doc]).
Proof.
  intros Hev Hdoc Hid operation_type issued. subst issued.
  rewrite (effects_of_ext _ _ w (process_event_unfold env r ev w Hev)).
  fold operation_type. rewrite Hdoc. split.
  - intro Hop.
    assert (eq_str operation_type "insert" = false) as ->.
    { destruct Hop as [H | H]; apply eq_str_true in H; now rewrite H. }
    assert (eq_str operation_type "update" || eq_str operation_type "replace" = true)
      as -> by (destruct Hop as [-> | ->]; auto using orb_true_r).
    rewrite calls_on_then_oracle by grows_auto.
    apply calls_on_of_db_calls.
    rewrite update_redshift_role_calls, Hid. simpl.
    destruct (respond env (log w) Redshift (update_call doc)) as [n | e];
      [destruct (n =? 0) |]; reflexivity.
  - intros ->.
    rewrite calls_on_then_oracle by grows_auto.
    apply calls_on_of_db_calls.
    now rewrite insert_redshift_role_calls, Hid.
Qed.

Lemma warehouse_write_strategy_witness :
  calls_on Redshift
    (effects_of (process_event mock_env (change_event "update" sample_doc sample_doc_key)
                   Redshift Oracle) initial_world)
  = [update_call sample_doc]
  /\ calls_on Redshift
       (effects_of (process_event mock_env
                      (change_event "insert" sample_doc sample_doc_key)
                      Redshift Oracle) initial_world)
     = [insert_call sample_doc].
Proof.
  split.
  - apply (proj1 (warehouse_write_strategy mock_env
                    [ ("event", VDict [ ("operationType", VStr "update");
                                        ("fullDocument", VDict sample_doc);
                                        ("documentKey", VDict sample_doc_key) ]) ]
                    [ ("operationType", VStr "update");
                      ("fullDocument", VDict sample_doc);
                      ("documentKey", VDict sample_doc_key) ]
                    sample_doc initial_world eq_refl eq_refl eq_refl)).
    left; reflexivity.
  - apply (proj2 (warehouse_write_strategy mock_env
                    [ ("event", VDict [ ("operationType", VStr "insert");
                                        ("fullDocument", VDict sample_doc);
                                        ("documentKey", VDict sample_doc_key) ]) ]
                    [ ("operationType", VStr "insert");
                      ("fullDocument", VDict sample_doc);
                      ("documentKey", VDict sample_doc_key) ]
                    sample_doc initial_world eq_refl eq_refl eq_refl)).
    reflexivity.
Defined.

(** C2, as stated, fails on insert events: the INSERT is issued although
    no UPDATE was attempted before it. *)
Lemma insert_event_makes_no_update_attempt :
  calls_on Redshift
    (effects_of (process_event mock_env (change_event "insert" sample_doc sample_doc_key)
                   Redshift Oracle) initial_world)
  = [insert_call sample_doc]
  /\ ~ In (update_call sample_doc)
          (calls_on Redshift
             (effects_of (process_event mock_env
                            (change_event "insert" sample_doc sample_doc_key)
                            Redshift Oracle) initial_world)).
Proof.
  assert (E : calls_on Redshift
                (effects_of (process_event mock_env
                               (change_event "insert" sample_doc sample_doc_key)
                               Redshift Oracle) initial_world)
              = [insert_call sample_doc]) by (vm_compute; reflexivity).
  rewrite E. split; [reflexivity |].
  intros [H | []]. discriminate H.
Qed.

(** ** The handler *)

Lemma db_call_done env (s : store) (c : call) (w : world) :
  is_execute c = false ->
  (exists n, respond env (log w) s c = Done n) ->
  db_call env s c w = (Normal tt, record_effect (Call s c) w).
Proof.
  intros Hc [n Hn]. unfold db_call. rewrite Hn.
  destruct c; (discriminate Hc || reflexivity).
Qed.

(** The [finally] block when no close raises. *)
Lemma close_all_run env (w : world) :
  (forall history s c, c = CloseCursor \/ c = CloseConnection ->
                       exists n, respond env history s c = Done n) ->
  exists w', close_all env w = (Normal tt, w')
             /\ log w' = (log w ++ [ Call Redshift CloseCursor;
                                     Call Redshift CloseConnection;
                                     Call Oracle CloseCursor;
                                     Call Oracle CloseConnection;
                                     Print "Connections closed." ])%list.
Proof.
  intro Hok. unfold close_all.
  unfold bind at 1. rewrite db_call_done by auto.
  unfold bind at 1. rewrite db_call_done by auto.
  unfold bind at 1. rewrite db_call_done by auto.
  unfold bind at 1. rewrite db_call_done by auto.
  eexists; split; [reflexivity |].
  simpl. now rewrite <- !app_assoc.
Qed.

(** The [except] block when no rollback raises. *)
Lemma on_error_run env (e : exn) (w : world) :
  (forall history s, exists n, respond env history s Rollback = Done n) ->
  exists w', on_error env e w = (Normal tt, w')
             /\ log w' = (log w ++ [ Print ("ERROR during processing: " ++ exn_text e);
                                     Call Redshift Rollback;
                                     Call Oracle Rollback ])%list.
Proof.
  intro Hok. unfold on_error.
  unfold bind at 1, print, emit.
  unfold bind at 1. rewrite db_call_done by auto.
  rewrite db_call_done by auto.
  eexists; split; [reflexivity |].
  simpl. now rewrite <- !app_assoc.
Qed.

(** C1, as amended.  When an exception escapes the [try] body (event
    processing or a commit) and neither the rollbacks nor the closes raise,
    the handler logs the error, rolls back Redshift and then Oracle, closes
    both cursors and connections, and returns ['OK'], the same token as
    after a successful batch. *)
Theorem failed_batch_rolls_back_and_returns_ok env (event context : value)
    (w0 w w1 : world) (e : exn) :
  open_connections env w0 = (Normal tt, w) ->
  process_records env event w = (Raised e, w1) ->
  (forall history s c, c = Rollback \/ c = CloseCursor \/ c = CloseConnection ->
                       exists n, respond env history s c = Done n) ->
  exists w2,
    lambda_handler env event context w0 = (Normal (VStr "OK"), w2)
    /\ log w2 = (log w1 ++ [ Print ("ERROR during processing: " ++ exn_text e);
                             Call Redshift Rollback;
                             Call Oracle Rollback;
                             Call Redshift CloseCursor;
                             Call Redshift CloseConnection;
                             Call Oracle CloseCursor;
                             Call Oracle CloseConnection;
                             Print "Connections closed." ])%list.
Proof.
  intros Hopen Hbody Hok.
  destruct (on_error_run env e w1) as (w2 & Herr & Lerr); [auto |].
  destruct (close_all_run env w2) as (w3 & Hclose & Lclose); [intuition |].
  exists w3. split.
  - unfold lambda_handler, bind at 1. rewrite Hopen.
    unfold bind, try_except_finally. now rewrite Hbody, Herr, Hclose.
  - rewrite Lclose, Lerr, <- app_assoc. reflexivity.
Qed.

Lemma failed_batch_rolls_back_and_returns_ok_witness :
  exists w2,
    lambda_handler failing_env
      (batch [change_event "insert" sample_doc sample_doc_key]) VNone initial_world
    = (Normal (VStr "OK"), w2)
    /\ calls_on Redshift (log w2)
       = [insert_call sample_doc; Rollback; CloseCursor; CloseConnection]
    /\ calls_on Oracle (log w2) = [Rollback; CloseCursor; CloseConnection].
Proof.
  pose (event := batch [change_event "insert" sample_doc sample_doc_key]).
  pose (w := snd (open_connections failing_env initial_world)).
  pose (w1 := snd (process_records failing_env event w)).
  destruct (failed_batch_rolls_back_and_returns_ok failing_env event VNone
              initial_world w w1 (Exn "DatabaseError" "relation does not exist"))
    as (w2 & Hrun & Hlog).
  - reflexivity.
  - reflexivity.
  - intros history s c [-> | [-> | ->]]; exists 1; now destruct s.
  - exists w2. split; [exact Hrun |].
    rewrite Hlog. split; reflexivity.
Defined.

(** C1, as stated, fails: a batch whose INSERT raises is rolled back, and
    the handler then returns ['OK'], exactly what it returns for the same
    batch when nothing fails. *)
Lemma failed_batch_returns_success_token :
  fst (lambda_handler failing_env
         (batch [change_event "insert" sample_doc sample_doc_key]) VNone initial_world)
  = Normal (VStr "OK")
  /\ In (Call Redshift Rollback)
        (log (snd (lambda_handler failing_env
                     (batch [change_event "insert" sample_doc sample_doc_key])
                     VNone initial_world)))
  /\ fst (lambda_handler mock_env
            (batch [change_event "insert" sample_doc sample_doc_key]) VNone initial_world)
     = Normal (VStr "OK").
Proof.
  split; [vm_compute; reflexivity |].
  split; [| vm_compute; reflexivity].
  vm_compute. tauto.
Qed.

(** C10.  With both connections open and commits and closes that do not
    raise, a batch without the ['events'] key or with an empty ['events']
    list executes no statement, commits Redshift and then Oracle, closes
    everything and returns ['OK']. *)
Theorem empty_batch_commits env (event : dict) (context : value) (w0 w : world) :
  open_connections env w0 = (Normal tt, w) ->
  lookup "events" event = None \/ lookup "events" event = Some (VList []) ->
  (forall history s c, c = Commit \/ c = CloseCursor \/ c = CloseConnection ->
                       exists n, respond env history s c = Done n) ->
  exists w',
    lambda_handler env (VDict event) context w0 = (Normal (VStr "OK"), w')
    /\ log w' = (log w ++ [ Print "processing records";
                            Call Redshift Commit;
                            Call Oracle Commit;
                            Call Redshift CloseCursor;
                            Call Redshift CloseConnection;
                            Call Oracle CloseCursor;
                            Call Oracle CloseConnection;
                            Print "Connections closed." ])%list.
Proof.
  intros Hopen Hevents Hok.
  assert (Hget : dict_get event "events" (VList []) = VList []).
  { unfold dict_get. now destruct Hevents as [-> | ->]. }
  assert (Hbody : process_records env (VDict event) w
                  = (Normal tt,
                     record_effect (Call Oracle Commit)
                       (record_effect (Call Redshift Commit)
                          (record_effect (Print "processing records") w)))).
  { unfold process_records. unfold bind at 1, print, emit.
    unfold bind at 1, get, ret. rewrite Hget.
    unfold bind at 1, iterate, ret. unfold bind at 1. simpl for_each.
    unfold ret at 1. unfold bind at 1.
    rewrite db_call_done by auto. now rewrite db_call_done by auto. }
  destruct (close_all_run env
              (record_effect (Call Oracle Commit)
                 (record_effect (Call Redshift Commit)
                    (record_effect (Print "processing records") w))))
    as (w3 & Hclose & Lclose); [intuition |].
  exists w3. split.
  - unfold lambda_handler, bind at 1. rewrite Hopen.
    unfold bind, try_except_finally. now rewrite Hbody, Hclose.
  - rewrite Lclose. simpl. now rewrite <- !app_assoc.
Qed.

Lemma empty_batch_commits_witness :
  exists w',
    lambda_handler mock_env (VDict []) VNone initial_world = (Normal (VStr "OK"), w')
    /\ db_calls (log w')
       = [ (Redshift, Commit); (Oracle, Commit);
           (Redshift, CloseCursor); (Redshift, CloseConnection);
           (Oracle, CloseCursor); (Oracle, CloseConnection) ].
Proof.
  destruct (empty_batch_commits mock_env [] VNone initial_world
              (snd (open_connections mock_env initial_world)))
    as (w' & Hrun & Hlog).
  - reflexivity.
  - left; reflexivity.
  - intros history s c _; now exists 1.
  - exists w'. split; [exact Hrun |]. rewrite Hlog. reflexivity.
Defined.

(** C9 at its failing input: the Oracle secret cannot be retrieved, so
    [get_secret] returns [None] and subscripting it raises after the
    Redshift connection and cursor were opened.  The exception leaves the
    handler before the [try] statement is entered: no close is ever called
    on Redshift. *)
Lemma redshift_connection_leaks_when_oracle_setup_fails :
  let run := lambda_handler no_oracle_secret_env (batch []) VNone initial_world in
  fst run = Raised (NotSubscriptable VNone)
  /\ In (OpenCursor Redshift) (log (snd run))
  /\ calls_on Redshift (log (snd run)) = [].
Proof.
  split; [vm_compute; reflexivity |].
  split; [| vm_compute; reflexivity].
  vm_compute. tauto.
Qed.

(** ** A batch on stores that do not fail *)

(** Once the [try] statement is entered the [finally] block always runs:
    whatever the batch does and whatever fails in it, when no close raises
    the log ends with the four closes. *)
Lemma try_statement_ends_with_closes env (event : value) (w : world) :
  (forall history s c, c = CloseCursor \/ c = CloseConnection ->
                       exists n, respond env history s c = Done n) ->
  exists r w1 w2,
    try_except_finally (process_records env event) (on_error env) (close_all env) w
    = (r, w2)
    /\ log w2 = (log w1 ++ [ Call Redshift CloseCursor;
                             Call Redshift CloseConnection;
                             Call Oracle CloseCursor;
                             Call Oracle CloseConnection;
                             Print "Connections closed." ])%list.
Proof.
  intro Hok. unfold try_except_finally.
  destruct (process_records env event w) as [[[] | e] w1].
  - destruct (close_all_run env w1 Hok) as (w2 & H & L).
    exists (Normal tt), w1, w2. now rewrite H.
  - destruct (on_error env e w1) as [[[] | e'] w2];
      destruct (close_all_run env w2 Hok) as (w3 & H & L);
      [exists (Normal tt), w2, w3 | exists (Raised e'), w2, w3]; now rewrite H.
Qed.

Lemma update_redshift_role_with_id env cursor (doc : dict) (w : world) :
  truthy (canonical_id doc) = true ->
  update_redshift_role env cursor (VDict doc) w
  = (execute env cursor update_sql
       (Positional [ VStr (json_dumps (VDict doc));
                     dict_get doc "last_update_date" VNone; canonical_id doc ]) ;;
     n <- read_rowcount cursor ;;
     if n =? 0 then insert_redshift_role env cursor (VDict doc)
     else print ("Updated Redshift role " ++ py_str (canonical_id doc))) w.
Proof.
  intro T. unfold update_redshift_role. unfold bind at 1.
  now rewrite extract_id_run, T.
Qed.

Section HealthyStores.

Variable env : environment.
Hypothesis stores_ok : never_fails env.

Lemma execute_print_ok cursor sql params line (w : world) :
  exists w', (execute env cursor sql params ;; print line) w = (Normal tt, w').
Proof.
  destruct (execute_print_run env cursor sql params line w) as (r & w' & H & _ & R).
  exists w'. rewrite H. f_equal. apply R. apply stores_ok.
Qed.

Lemma insert_redshift_role_ok cursor (doc : dict) (w : world) :
  exists w', insert_redshift_role env cursor (VDict doc) w = (Normal tt, w').
Proof.
  unfold insert_redshift_role. unfold bind at 1. rewrite extract_id_run.
  destruct (truthy (canonical_id doc)); cbv beta iota delta [negb].
  - apply execute_print_ok.
  - eexists; reflexivity.
Qed.

Lemma update_redshift_role_ok cursor (doc : dict) (w : world) :
  exists w', update_redshift_role env cursor (VDict doc) w = (Normal tt, w').
Proof.
  destruct (truthy (canonical_id doc)) eqn:T.
  2: { unfold update_redshift_role. unfold bind at 1.
       rewrite extract_id_run, T. eexists; reflexivity. }
  rewrite (update_redshift_role_with_id env cursor doc w T).
  unfold bind at 1, execute, db_call.
  destruct (stores_ok (log w) cursor (update_call doc)) as [n Hn].
  fold (update_call doc). rewrite Hn.
  unfold bind at 1, read_rowcount.
  match goal with |- context [if ?b then _ else _] => destruct b end.
  - apply insert_redshift_role_ok.
  - eexists; reflexivity.
Qed.

Lemma update_oracle_role_ok cursor (doc : dict) (operation_type : value) (w : world) :
  exists w', update_oracle_role env cursor (VDict doc) operation_type w = (Normal tt, w').
Proof.
  unfold update_oracle_role, get, bind at 1, ret. cbv beta iota.
  destruct (truthy (dict_get doc "role_id" VNone)); cbv beta iota delta [negb].
  2: { eexists; reflexivity. }
  unfold bind at 1. cbv beta iota.
  match goal with |- context [if ?b then _ else _] => destruct b end.
  - repeat (unfold bind at 1; cbv beta iota). apply execute_print_ok.
  - match goal with |- context [if ?b then _ else _] => destruct b end.
    + apply execute_print_ok.
    + eexists; reflexivity.
Qed.

End HealthyStores.

Lemma seq_effects (m1 m2 : M unit) (w w1 : world) :
  grows m1 -> grows m2 -> m1 w = (Normal tt, w1) ->
  effects_of (m1 ;; m2) w = (effects_of m1 w ++ effects_of m2 w1)%list.
Proof.
  intros H1 H2 H. rewrite effects_of_bind; auto. now rewrite H.
Qed.

Lemma seq_ok (m1 m2 : M unit) (w w1 w2 : world) :
  m1 w = (Normal tt, w1) -> m2 w1 = (Normal tt, w2) ->
  (m1 ;; m2) w = (Normal tt, w2).
Proof. intros H1 H2. unfold bind. now rewrite H1. Qed.

Lemma insert_missing_id env cursor (doc : dict) (w : world) :
  truthy (canonical_id doc) = false ->
  effects_of (insert_redshift_role env cursor (VDict doc)) w
  = [Print "Missing _id for insert."].
Proof.
  intro H. rewrite <- (effects_of_print "Missing _id for insert." w).
  apply effects_of_ext. unfold insert_redshift_role, bind at 1.
  now rewrite extract_id_run, H.
Qed.

Lemma update_missing_id env cursor (doc : dict) (w : world) :
  truthy (canonical_id doc) = false ->
  effects_of (update_redshift_role env cursor (VDict doc)) w
  = [Print "Missing _id for update."].
Proof.
  intro H. rewrite <- (effects_of_print "Missing _id for update." w).
  apply effects_of_ext. unfold update_redshift_role, bind at 1.
  now rewrite extract_id_run, H.
Qed.

Lemma oracle_missing_role_id env cursor (doc : dict) operation_type (w : world) :
  truthy (dict_get doc "role_id" VNone) = false ->
  effects_of (update_oracle_role env cursor (VDict doc) operation_type) w
  = [Print "Missing role_id for Oracle operation."].
Proof.
  intro H. rewrite <- (effects_of_print "Missing role_id for Oracle operation." w).
  apply effects_of_ext. unfold update_oracle_role, get, bind at 1, ret.
  now rewrite H.
Qed.

Lemma calls_on_other_of_db_calls (s s' : store) (l : list effect) (cs : list call) :
  store_eqb s' s = false -> db_calls l = map (pair s') cs -> calls_on s l = [].
Proof.
  intros Hs H. rewrite calls_on_db_calls, H.
  now rewrite filter_other_store.
Qed.

Lemma insert_redshift_role_db_calls env (doc : dict) (w : world) :
  db_calls (effects_of (insert_redshift_role env Redshift (VDict doc)) w)
  = map (pair Redshift) (if truthy (canonical_id doc) then [insert_call doc] else []).
Proof.
  rewrite insert_redshift_role_calls. now destruct (truthy (canonical_id doc)).
Qed.

Lemma update_redshift_role_db_calls env (doc : dict) (w : world) :
  db_calls (effects_of (update_redshift_role env Redshift (VDict doc)) w)
  = map (pair Redshift)
      (if truthy (canonical_id doc) then
         update_call doc
         :: match respond env (log w) Redshift (update_call doc) with
            | Done n => if n =? 0 then [insert_call doc] else []
            | Fails _ => []
            end
       else []).
Proof.
  rewrite update_redshift_role_calls.
  destruct (truthy (canonical_id doc)); [| reflexivity].
  destruct (respond env (log w) Redshift (update_call doc)) as [n | e];
    [destruct (n =? 0) |]; reflexivity.
Qed.

Lemma eq_str_other (v : value) (a b : string) :
  eq_str v a = true -> a <> b -> eq_str v b = false.
Proof.
  intros H Hab. apply eq_str_true in H. subst v. simpl.
  now apply String.eqb_neq.
Qed.

Lemma config_action_without_role_id (doc : dict) (operation_type : value) :
  truthy (dict_get doc "role_id" VNone) = false ->
  config_action doc operation_type = [].
Proof. unfold config_action. now intros ->. Qed.

Lemma config_action_with_role_id (doc : dict) (operation_type : value) :
  truthy (dict_get doc "role_id" VNone) = true ->
  is_upsert_kind operation_type = true \/ eq_str operation_type "delete" = true ->
  config_action doc operation_type
  = [ if is_upsert_kind operation_type
         && negb (truthy (dict_get doc "is_deleted" (VBool false)))
      then merge_call doc
      else delete_call (dict_get doc "role_id" VNone) ].
Proof.
  unfold config_action. intros -> H.
  destruct (truthy (dict_get doc "is_deleted" (VBool false))).
  - now rewrite andb_false_r.
  - rewrite andb_true_r.
    destruct (is_upsert_kind operation_type); [reflexivity |].
    destruct H as [H | H]; [discriminate H | now rewrite H].
Qed.

Section Routes.

Variable env : environment.
Hypothesis stores_ok : never_fails env.

(** What the Oracle sink adds after a Redshift sink that returned. *)
Lemma route_through_both (sink : M unit) (doc : dict) (operation_type : value)
    (w : world) (cs : list call) :
  grows sink ->
  (exists w1, sink w = (Normal tt, w1)) ->
  db_calls (effects_of sink w) = map (pair Redshift) cs ->
  let route := sink ;; update_oracle_role env Oracle (VDict doc) operation_type in
  let d := effects_of route w in
  (exists w', route w = (Normal tt, w'))
  /\ calls_on Redshift d = cs
  /\ calls_on Oracle d = config_action doc operation_type
  /\ (forall line, In (Print line) (effects_of sink w) -> In (Print line) d)
  /\ (truthy (dict_get doc "role_id" VNone) = false ->
      In (Print "Missing role_id for Oracle operation.") d).
Proof.
  intros Hg [w1 H1] Hcalls route d.
  destruct (update_oracle_role_ok env stores_ok Oracle doc operation_type w1)
    as [w2 H2].
  assert (E : d = (effects_of sink w
                   ++ effects_of (update_oracle_role env Oracle (VDict doc)
                                    operation_type) w1)%list).
  { subst d route. apply seq_effects; auto with grows. }
  rewrite E. repeat split.
  - exists w2. now apply seq_ok with w1.
  - rewrite calls_on_app, update_oracle_role_other_store, app_nil_r.
    now apply calls_on_of_db_calls.
  - rewrite calls_on_app.
    rewrite (calls_on_other_of_db_calls Oracle Redshift _ cs eq_refl Hcalls).
    apply calls_on_of_db_calls, update_oracle_role_calls.
  - intros line Hin. apply in_or_app. now left.
  - intro Hid. apply in_or_app. right.
    rewrite oracle_missing_role_id by assumption. now left.
Qed.

Lemma route_delete (key : dict) (operation_type : value) (w : world) :
  let route := update_oracle_role env Oracle (VDict key) operation_type in
  let d := effects_of route w in
  (exists w', route w = (Normal tt, w'))
  /\ calls_on Redshift d = []
  /\ calls_on Oracle d = config_action key operation_type
  /\ (truthy (dict_get key "role_id" VNone) = false ->
      In (Print "Missing role_id for Oracle operation.") d).
Proof.
  intros route d. subst route d. repeat split.
  - now apply update_oracle_role_ok.
  - apply update_oracle_role_other_store.
  - apply calls_on_of_db_calls, update_oracle_role_calls.
  - intro Hid. rewrite oracle_missing_role_id by assumption. now left.
Qed.

End Routes.

Ltac kinds Hi Hu Hr Hd :=
  unfold is_upsert_kind; rewrite ?Hi, ?Hu, ?Hr, ?Hd; cbn [orb andb].

(** Splits an [event_outcome] into its seven clauses and drops those whose
    premise about the operation type is false. *)
Ltac clauses :=
  refine (conj _ (conj _ (conj _ (conj _ (conj _ (conj _ _))))));
  try (intros; discriminate);
  try (intros [? | ?]; discriminate).

(** One loop iteration on a well-shaped record, on stores that do not
    fail: [process_event] returns, and what it did is an [event_outcome]. *)
Lemma process_event_outcome env (record : value) (w : world) :
  never_fails env ->
  well_shaped record = true ->
  (exists w', process_event env record Redshift Oracle w = (Normal tt, w'))
  /\ event_outcome record (effects_of (process_event env record Redshift Oracle) w).
Proof.
  intros Hok Hshape.
  destruct record as [| | | | | r]; try discriminate Hshape.
  unfold well_shaped, event_data_of in Hshape.
  change (as_dict (VDict r)) with r in Hshape.
  destruct (dict_get r "event" (VDict [])) as [| | | | | ev] eqn:Hev;
    try discriminate Hshape.
  change (as_dict (VDict ev)) with ev in Hshape.
  destruct (dict_get ev "fullDocument" (VDict [])) as [| | | | | doc] eqn:Hdoc;
    try discriminate Hshape.
  destruct (dict_get ev "documentKey" (VDict [])) as [| | | | | key] eqn:Hkey;
    try discriminate Hshape.
  clear Hshape.
  pose proof (process_event_unfold env r ev w Hev) as Hrun. cbv zeta in Hrun.
  rewrite Hdoc, Hkey in Hrun.
  rewrite (effects_of_ext _ _ w Hrun), Hrun. clear Hrun.
  unfold event_outcome, operation_type_of, full_document_of, document_key_of,
    event_data_of.
  change (as_dict (VDict r)) with r. rewrite Hev.
  change (as_dict (VDict ev)) with ev. rewrite Hdoc, Hkey.
  change (as_dict (VDict doc)) with doc. change (as_dict (VDict key)) with key.
  cbv zeta.
  set (operation_type := dict_get ev "operationType" VNone). clearbody operation_type.
  destruct (eq_str operation_type "insert") eqn:Hi.
  { (* insert *)
    assert (Hu := eq_str_other _ _ "update" Hi ltac:(discriminate)).
    assert (Hr := eq_str_other _ _ "replace" Hi ltac:(discriminate)).
    assert (Hd := eq_str_other _ _ "delete" Hi ltac:(discriminate)).
    destruct (route_through_both env Hok
                (insert_redshift_role env Redshift (VDict doc)) doc operation_type w
                (if truthy (canonical_id doc) then [insert_call doc] else []))
      as (Hret & Hred & Hora & Hwarn & Hmissing);
      [ auto with grows | now apply insert_redshift_role_ok
      | apply insert_redshift_role_db_calls | ].
    split; [exact Hret |]. kinds Hi Hu Hr Hd. clauses.
    - intros _ T. split; [now rewrite Hred, T |].
      left. apply Hwarn. rewrite insert_missing_id by assumption. now left.
    - intros _ T. now rewrite Hred, T.
    - intros _ T. split; [| now apply Hmissing].
      rewrite Hora. now apply config_action_without_role_id.
    - intros _ T. rewrite Hora.
      rewrite (config_action_with_role_id doc operation_type T)
        by (left; kinds Hi Hu Hr Hd; reflexivity).
      kinds Hi Hu Hr Hd. reflexivity. }
  destruct (eq_str operation_type "update" || eq_str operation_type "replace") eqn:Hur.
  { (* update, replace *)
    assert (Hd : eq_str operation_type "delete" = false).
    { apply orb_true_iff in Hur. destruct Hur as [H | H];
        exact (eq_str_other _ _ "delete" H ltac:(discriminate)). }
    assert (Hup : is_upsert_kind operation_type = true).
    { unfold is_upsert_kind. now rewrite <- orb_assoc, Hur, orb_true_r. }
    destruct (route_through_both env Hok
                (update_redshift_role env Redshift (VDict doc)) doc operation_type w
                (if truthy (canonical_id doc) then
                   update_call doc
                   :: match respond env (log w) Redshift (update_call doc) with
                      | Done n => if n =? 0 then [insert_call doc] else []
                      | Fails _ => []
                      end
                 else []))
      as (Hret & Hred & Hora & Hwarn & Hmissing);
      [ auto with grows | now apply update_redshift_role_ok
      | apply update_redshift_role_db_calls | ].
    split; [exact Hret |]. rewrite Hup, Hd. clauses.
    - intros _ T. split; [now rewrite Hred, T |].
      right. apply Hwarn. rewrite update_missing_id by assumption. now left.
    - intros _ T. rewrite Hred, T.
      destruct (respond env (log w) Redshift (update_call doc)) as [n | e];
        [destruct (n =? 0) |]; auto.
    - intros _ T. split; [| now apply Hmissing].
      rewrite Hora. now apply config_action_without_role_id.
    - intros _ T. rewrite Hora.
      rewrite (config_action_with_role_id doc operation_type T) by (now left).
      now rewrite Hup. }
  apply orb_false_iff in Hur. destruct Hur as [Hu Hr].
  destruct (eq_str operation_type "delete") eqn:Hd.
  { (* delete *)
    destruct (route_delete env Hok key operation_type w)
      as (Hret & Hred & Hora & Hmissing).
    split; [exact Hret |]. kinds Hi Hu Hr Hd. clauses.
    - now intros _.
    - intros _ T. split; [| now apply Hmissing].
      rewrite Hora. now apply config_action_without_role_id.
    - intros _ T. rewrite Hora.
      rewrite (config_action_with_role_id key operation_type T) by (now right).
      kinds Hi Hu Hr Hd. reflexivity. }
  (* any other operation type *)
  split; [eexists; reflexivity |]. kinds Hi Hu Hr Hd.
  rewrite effects_of_print. clauses.
  intros _ _. split; [reflexivity | now left].
Qed.

Lemma event_outcome_after_print (record : value) (line : string) (d : list effect) :
  event_outcome record d -> event_outcome record (Print line :: d).
Proof.
  unfold event_outcome.
  change (calls_on Redshift (Print line :: d)) with (calls_on Redshift d).
  change (calls_on Oracle (Print line :: d)) with (calls_on Oracle d).
  change (db_calls (Print line :: d)) with (db_calls d).
  cbn [In]. intuition.
Qed.

(** The loop of [process_records] on well-shaped records and stores that
    do not fail: it runs to its end, and the log grows by one chunk per
    record, each an [event_outcome] of its record. *)
Lemma loop_outcome env (records : list value) (w : world) :
  never_fails env ->
  Forall (fun record => well_shaped record = true) records ->
  exists w' deltas,
    for_each records (fun record =>
      print "processing record" ;;
      print (py_str record) ;;
      process_event env record Redshift Oracle) w = (Normal tt, w')
    /\ log w' = (log w ++ concat deltas)%list
    /\ Forall2 event_outcome records deltas.
Proof.
  intros Hok Hall. revert w.
  induction Hall as [| record rest Hshape _ IH]; intro w.
  - exists w, []. repeat split; [now rewrite app_nil_r | constructor].
  - set (w1 := record_effect (Print (py_str record))
                 (record_effect (Print "processing record") w)).
    destruct (process_event_outcome env record w1 Hok Hshape) as [[w2 Hrun] Hout].
    destruct (IH w2) as (w' & deltas & Hloop & Hlog & Hdeltas).
    exists w'.
    exists ((Print "processing record" :: Print (py_str record)
             :: effects_of (process_event env record Redshift Oracle) w1)
            :: deltas).
    split; [| split].
    + cbn [for_each]. unfold bind at 1.
      change ((print "processing record" ;;
               print (py_str record) ;;
               process_event env record Redshift Oracle) w)
        with (process_event env record Redshift Oracle w1).
      now rewrite Hrun.
    + rewrite Hlog.
      pose proof (effects_of_grows (process_event env record Redshift Oracle) w1
                    (grows_process_event env record Redshift Oracle)) as Hg.
      rewrite Hrun in Hg. cbn [snd] in Hg. rewrite Hg.
      subst w1. cbn [log record_effect concat]. now rewrite <- !app_assoc.
    + constructor; [| exact Hdeltas].
      now do 2 apply event_outcome_after_print.
Qed.

(** ** Skipped events *)

(** C5, as amended.  On stores that do not fail, a batch of well-shaped
    records is processed to its end: every record adds its own chunk to the
    log, in order, then Redshift and Oracle are committed, everything is
    closed and ['OK'] is returned.  In its chunk ([event_outcome]), a record
    with an unrecognised operation type makes no driver call and prints the
    warning; a record without canonical id makes no call on Redshift and
    prints the warning; a record without role_id makes no call on Oracle
    and prints the warning; each sink skips for itself, so the other store
    is still written; and a record that has the identifier makes its
    Redshift write and its one Oracle statement. *)
Theorem skipped_events_do_not_stop_batch env (event : dict) (records : list value)
    (context : value) (w0 w : world) :
  open_connections env w0 = (Normal tt, w) ->
  never_fails env ->
  lookup "events" event = Some (VList records) ->
  Forall (fun record => well_shaped record = true) records ->
  exists w' deltas,
    lambda_handler env (VDict event) context w0 = (Normal (VStr "OK"), w')
    /\ log w' = (log w ++ [Print "processing records"] ++ concat deltas
                 ++ [ Call Redshift Commit;
                      Call Oracle Commit;
                      Call Redshift CloseCursor;
                      Call Redshift CloseConnection;
                      Call Oracle CloseCursor;
                      Call Oracle CloseConnection;
                      Print "Connections closed." ])%list
    /\ Forall2 event_outcome records deltas.
Proof.
  intros Hopen Hok Hevents Hall.
  destruct (loop_outcome env records (record_effect (Print "processing records") w)
              Hok Hall) as (w1 & deltas & Hloop & Hlog & Hdeltas).
  set (w2 := record_effect (Call Oracle Commit)
               (record_effect (Call Redshift Commit) w1)).
  assert (Hbody : process_records env (VDict event) w = (Normal tt, w2)).
  { unfold process_records. unfold bind at 1, print, emit.
    unfold bind at 1, get, ret, dict_get. rewrite Hevents.
    unfold bind at 1, iterate, ret. unfold bind at 1.
    fold (print "processing record"). unfold print, emit in Hloop.
    unfold print, emit. rewrite Hloop.
    unfold bind at 1. rewrite db_call_done by (auto using Hok).
    now rewrite db_call_done by (auto using Hok). }
  destruct (close_all_run env w2) as (w3 & Hclose & Lclose); [intros; apply Hok |].
  exists w3, deltas. split; [| split; [| exact Hdeltas]].
  - unfold lambda_handler, bind at 1. rewrite Hopen.
    unfold bind, try_except_finally. now rewrite Hbody, Hclose.
  - rewrite Lclose. subst w2. cbn [log record_effect]. rewrite Hlog.
    cbn [log record_effect]. now rewrite <- !app_assoc.
Qed.

Lemma skipped_events_do_not_stop_batch_witness :
  exists w' deltas,
    lambda_handler mock_env (batch mixed_records) VNone initial_world
    = (Normal (VStr "OK"), w')
    /\ log w' = (log (snd (open_connections mock_env initial_world))
                 ++ [Print "processing records"] ++ concat deltas
                 ++ [ Call Redshift Commit;
                      Call Oracle Commit;
                      Call Redshift CloseCursor;
                      Call Redshift CloseConnection;
                      Call Oracle CloseCursor;
                      Call Oracle CloseConnection;
                      Print "Connections closed." ])%list
    /\ Forall2 event_outcome mixed_records deltas.
Proof.
  apply (skipped_events_do_not_stop_batch mock_env [("events", VList mixed_records)]
           mixed_records VNone initial_world
           (snd (open_connections mock_env initial_world))).
  - reflexivity.
  - intros history s c. now exists 1.
  - reflexivity.
  - repeat constructor.
Defined.

(** C5, as stated, fails: an insert event whose document has a role_id and
    no [_id] is one of the events with a missing identifier, yet it writes
    to a store, the MERGE on Oracle. *)
Lemma event_without_id_still_writes_config :
  canonical_id [ ("role_id", VStr "admin") ] = VNone
  /\ db_calls
       (log (snd (lambda_handler mock_env
                    (batch [ change_event "insert" [ ("role_id", VStr "admin") ]
                               sample_doc_key ])
                    VNone initial_world)))
     = [ (Oracle, merge_call [ ("role_id", VStr "admin") ]);
         (Redshift, Commit); (Oracle, Commit);
         (Redshift, CloseCursor); (Redshift, CloseConnection);
         (Oracle, CloseCursor); (Oracle, CloseConnection) ].
Proof.
  split; vm_compute; reflexivity.
Qed.

(** * Further properties of the code *)

(** ** Which effects a computation can add *)

Create HintDb emits.

Lemma emits_only_grows {A : Type} (P : effect -> Prop) (m : M A) :
  emits_only P m -> grows m.
Proof. intros H w. destruct (H w) as (d & L & _). now exists d. Qed.

Lemma emits_only_effects {A : Type} (P : effect -> Prop) (m : M A) (w : world) :
  emits_only P m -> Forall P (effects_of m w).
Proof.
  intro H. destruct (H w) as (d & L & F). unfold effects_of.
  now rewrite L, skipn_log_app.
Qed.

Lemma emits_only_weaken {A : Type} (P Q : effect -> Prop) (m : M A) :
  (forall e, P e -> Q e) -> emits_only P m -> emits_only Q m.
Proof.
  intros HPQ H w. destruct (H w) as (d & L & F). exists d. split; [exact L |].
  eapply Forall_impl; eauto.
Qed.

Section Emits.

Variable P : effect -> Prop.

Lemma emits_ret {A : Type} (a : A) : emits_only P (ret a).
Proof. intro w; exists []; simpl; split; [now rewrite app_nil_r | constructor]. Qed.

Lemma emits_raise {A : Type} (e : exn) : emits_only P (@raise A e).
Proof. intro w; exists []; simpl; split; [now rewrite app_nil_r | constructor]. Qed.

Lemma emits_bind {A B : Type} (m : M A) (k : A -> M B) :
  emits_only P m -> (forall a, emits_only P (k a)) -> emits_only P (bind m k).
Proof.
  intros Hm Hk w. unfold bind.
  destruct (Hm w) as (d1 & H1 & F1). destruct (m w) as [[a | e] w1]; simpl in *.
  - destruct (Hk a w1) as (d2 & H2 & F2). exists (d1 ++ d2)%list. split.
    + now rewrite H2, H1, app_assoc.
    + now apply Forall_app.
  - now exists d1.
Qed.

Lemma emits_emit (e : effect) : P e -> emits_only P (emit e).
Proof. intros H w; exists [e]; split; [reflexivity | now constructor]. Qed.

Lemma emits_print (line : string) : P (Print line) -> emits_only P (print line).
Proof. apply emits_emit. Qed.

Lemma emits_get (v : value) (key : string) (default : value) :
  emits_only P (get v key default).
Proof. destruct v; simpl; (apply emits_ret || apply emits_raise). Qed.

Lemma emits_subscript (v : value) (key : string) : emits_only P (subscript v key).
Proof.
  destruct v; simpl; try apply emits_raise.
  destruct (lookup key entries); [apply emits_ret | apply emits_raise].
Qed.

Lemma emits_iterate (v : value) : emits_only P (iterate v).
Proof. destruct v; simpl; (apply emits_ret || apply emits_raise). Qed.

Lemma emits_db_call env (s : store) (c : call) :
  P (Call s c) -> emits_only P (db_call env s c).
Proof.
  intros H w. exists [Call s c]. split; [| now constructor].
  unfold db_call. destruct (respond env (log w) s c); [destruct c |]; reflexivity.
Qed.

Lemma emits_read_rowcount (cursor : store) : emits_only P (read_rowcount cursor).
Proof. intro w; exists []; simpl; split; [now rewrite app_nil_r | constructor]. Qed.

Lemma emits_for_each {A : Type} (items : list A) (body : A -> M unit) :
  (forall a, emits_only P (body a)) -> emits_only P (for_each items body).
Proof.
  intro Hb. induction items as [| a rest IH]; simpl.
  - apply emits_ret.
  - apply emits_bind; auto.
Qed.

Lemma emits_try (body : M unit) (handler : exn -> M unit) (final : M unit) :
  emits_only P body -> (forall e, emits_only P (handler e)) -> emits_only P final ->
  emits_only P (try_except_finally body handler final).
Proof.
  intros Hb Hh Hf w. unfold try_except_finally.
  destruct (Hb w) as (d1 & H1 & F1).
  destruct (body w) as [[[] | e] w1]; simpl in H1.
  - destruct (Hf w1) as (d2 & H2 & F2). exists (d1 ++ d2)%list.
    split; [| now apply Forall_app].
    destruct (final w1) as [[[] | e] w2]; simpl in *;
      now rewrite H2, H1, app_assoc.
  - destruct (Hh e w1) as (d2 & H2 & F2).
    destruct (handler e w1) as [[[] | e'] w2]; simpl in H2;
      destruct (Hf w2) as (d3 & H3 & F3); exists (d1 ++ d2 ++ d3)%list;
      (split; [| apply Forall_app; split;
                 [assumption | apply Forall_app; split; assumption]]);
      destruct (final w2) as [[[] | e''] w3]; simpl in *;
      now rewrite H3, H2, H1, <- !app_assoc.
Qed.

End Emits.

(** Solves the side condition of a leaf: the effect is of the wanted kind. *)
Ltac kind_of_effect :=
  solve [ exact I | reflexivity | left; reflexivity | right; reflexivity ].

#[export] Hint Resolve emits_ret emits_raise emits_get emits_subscript emits_iterate
  emits_read_rowcount : emits.
#[export] Hint Extern 2 (emits_only _ (bind _ _)) =>
  apply emits_bind; [| intro] : emits.
#[export] Hint Extern 2 (emits_only _ (if _ then _ else _)) =>
  match goal with |- context [if ?b then _ else _] => destruct b end : emits.
#[export] Hint Extern 2 (emits_only _ (match ?x with _ => _ end)) => destruct x : emits.
#[export] Hint Extern 1 (emits_only _ (print _)) =>
  apply emits_print; kind_of_effect : emits.
#[export] Hint Extern 1 (emits_only _ (emit _)) =>
  apply emits_emit; kind_of_effect : emits.
#[export] Hint Extern 1 (emits_only _ (db_call _ _ _)) =>
  apply emits_db_call; kind_of_effect : emits.
#[export] Hint Extern 1 (emits_only _ (execute _ _ _ _)) =>
  apply emits_db_call; kind_of_effect : emits.

Ltac emits_auto := auto 40 with emits.

Lemma emits_extract_id (P : effect -> Prop) (doc : value) :
  emits_only P (extract_id doc).
Proof. unfold extract_id. emits_auto. Qed.

#[export] Hint Resolve emits_extract_id : emits.

Lemma emits_insert_redshift_role env role :
  emits_only statement_effect (insert_redshift_role env Redshift role).
Proof. unfold insert_redshift_role. emits_auto. Qed.

#[export] Hint Resolve emits_insert_redshift_role : emits.

Lemma emits_update_redshift_role env role :
  emits_only statement_effect (update_redshift_role env Redshift role).
Proof. unfold update_redshift_role. emits_auto. Qed.

Lemma emits_update_oracle_role env role operation_type :
  emits_only statement_effect (update_oracle_role env Oracle role operation_type).
Proof. unfold update_oracle_role. emits_auto. Qed.

#[export] Hint Resolve emits_update_redshift_role emits_update_oracle_role : emits.

Lemma emits_process_event env record :
  emits_only statement_effect (process_event env record Redshift Oracle).
Proof. unfold process_event. emits_auto. Qed.

Lemma statement_is_try_body (e : effect) : statement_effect e -> try_body_effect e.
Proof. destruct e as [| | | | s c]; simpl; auto. destruct c; auto. Qed.

Lemma statement_is_run (e : effect) : statement_effect e -> run_effect e.
Proof.
  destruct e as [| | s kw | | s c]; simpl; try tauto.
  destruct s, c; simpl; tauto.
Qed.

Lemma try_body_is_run (e : effect) : try_body_effect e -> run_effect e.
Proof.
  destruct e as [| | s kw | | s c]; simpl; try tauto.
  destruct s, c; simpl; tauto.
Qed.

Lemma handler_is_run (e : effect) : handler_effect e -> run_effect e.
Proof.
  destruct e as [| | s kw | | s c]; simpl; try tauto.
  destruct s, c; simpl; tauto.
Qed.

Lemma emits_loop_body env record : emits_only statement_effect (loop_body env record).
Proof.
  unfold loop_body. pose proof (emits_process_event env record). emits_auto.
Qed.

Lemma process_records_loop env (event : value) :
  process_records env event
  = (print "processing records" ;;
     events <- get event "events" (VList []) ;;
     records <- iterate events ;;
     for_each records (loop_body env) ;;
     db_call env Redshift Commit ;;
     db_call env Oracle Commit).
Proof. reflexivity. Qed.

Lemma emits_records_loop env (event : value) :
  emits_only statement_effect (records_loop env event).
Proof.
  unfold records_loop.
  apply emits_bind; [emits_auto | intros _].
  apply emits_bind; [emits_auto | intros events].
  apply emits_bind; [emits_auto | intros records].
  apply emits_for_each. apply emits_loop_body.
Qed.

Lemma emits_process_records env (event : value) :
  emits_only try_body_effect (process_records env event).
Proof.
  rewrite process_records_loop.
  apply emits_bind; [emits_auto | intros _].
  apply emits_bind; [emits_auto | intros events].
  apply emits_bind; [emits_auto | intros records].
  apply emits_bind; [| emits_auto].
  apply emits_for_each. intro record.
  apply (emits_only_weaken statement_effect); [apply statement_is_try_body |].
  apply emits_loop_body.
Qed.

Lemma emits_on_error env (e : exn) : emits_only handler_effect (on_error env e).
Proof. unfold on_error. emits_auto. Qed.

Lemma emits_get_secret env (name : string) : emits_only setup_effect (get_secret env name).
Proof. unfold get_secret. emits_auto. Qed.

Lemma emits_db_connect_setup env (s : store) (kwargs : dict) :
  emits_only setup_effect (db_connect env s kwargs).
Proof. unfold db_connect. emits_auto. Qed.

Lemma emits_open_connections_setup env : emits_only setup_effect (open_connections env).
Proof.
  unfold open_connections, open_cursor.
  pose proof (emits_get_secret env). pose proof (emits_db_connect_setup env).
  emits_auto.
Qed.

Lemma setup_has_no_calls (l : list effect) : Forall setup_effect l -> db_calls l = [].
Proof.
  induction 1 as [| e l He _ IH]; [reflexivity |].
  destruct e; simpl in *; auto. contradiction.
Qed.

Lemma effects_of_try (body : M unit) (handler : exn -> M unit) (final : M unit)
    (w : world) :
  grows body -> (forall e, grows (handler e)) -> grows final ->
  effects_of (try_except_finally body handler final) w
  = (effects_of body w
     ++ match body w with
        | (Normal _, w1) => effects_of final w1
        | (Raised e, w1) =>
            effects_of (handler e) w1 ++ effects_of final (snd (handler e w1))
        end)%list.
Proof.
  intros Hb Hh Hf. pose proof (effects_of_grows body w Hb) as H1.
  unfold effects_of at 1. unfold try_except_finally.
  destruct (body w) as [[[] | e] w1]; simpl in H1.
  - pose proof (effects_of_grows final w1 Hf) as H2.
    destruct (final w1) as [[[] | e] w2]; simpl in *;
      now rewrite H2, H1, <- app_assoc, skipn_log_app.
  - pose proof (effects_of_grows (handler e) w1 (Hh e)) as H2.
    destruct (handler e w1) as [[[] | e'] w2]; simpl in H2 |- *;
      pose proof (effects_of_grows final w2 Hf) as H3;
      destruct (final w2) as [[[] | e''] w3]; simpl in *;
      now rewrite H3, H2, H1, <- !app_assoc, skipn_log_app.
Qed.

Lemma close_calls_app (l1 l2 : list effect) :
  close_calls (l1 ++ l2) = (close_calls l1 ++ close_calls l2)%list.
Proof. unfold close_calls. now rewrite db_calls_app, filter_app. Qed.

Lemma rollback_calls_app (l1 l2 : list effect) :
  rollback_calls (l1 ++ l2) = (rollback_calls l1 ++ rollback_calls l2)%list.
Proof. unfold rollback_calls. now rewrite db_calls_app, filter_app. Qed.

Lemma try_body_never_closes (l : list effect) :
  Forall try_body_effect l -> close_calls l = [] /\ rollback_calls l = [].
Proof.
  induction 1 as [| e l He _ [IH1 IH2]]; [split; reflexivity |].
  change (e :: l) with ([e] ++ l)%list.
  rewrite close_calls_app, rollback_calls_app, IH1, IH2, !app_nil_r.
  destruct e as [| | | | s c]; try (split; reflexivity).
  destruct s, c; simpl in He; try contradiction; split; reflexivity.
Qed.

Lemma handler_never_closes (l : list effect) :
  Forall handler_effect l -> close_calls l = [].
Proof.
  induction 1 as [| e l He _ IH]; [reflexivity |].
  change (e :: l) with ([e] ++ l)%list. rewrite close_calls_app, IH, app_nil_r.
  destruct e as [| | | | s c]; try reflexivity.
  destruct c; simpl in He; try contradiction; reflexivity.
Qed.

Lemma handler_effects_of_lambda env (event context : value) (w0 w : world) :
  open_connections env w0 = (Normal tt, w) ->
  effects_of (lambda_handler env event context) w0
  = (effects_of (open_connections env) w0
     ++ effects_of (try_except_finally (process_records env event) (on_error env)
                      (close_all env)) w)%list.
Proof.
  intro Hopen. unfold lambda_handler.
  rewrite effects_of_bind.
  2: { apply (emits_only_grows setup_effect), emits_open_connections_setup. }
  2: { intros _. apply grows_bind; [| intro; apply grows_ret].
       apply grows_try; auto using grows_process_records, grows_on_error,
                           grows_close_all. }
  rewrite Hopen. f_equal.
  rewrite effects_of_bind;
    [| apply grows_try; auto using grows_process_records, grows_on_error,
                          grows_close_all
     | intro; apply grows_ret].
  destruct (try_except_finally _ _ _ w) as [[[] | e] w1].
  - now rewrite effects_of_ret, app_nil_r.
  - apply app_nil_r.
Qed.

(** ** [get_secret] *)

(** X1.  [get_secret] never raises.  When the secret is retrieved it is
    returned and nothing is printed; when the retrieval raises, one error
    line naming the secret is printed and [None] is returned. *)
Theorem get_secret_never_raises env (name : string) (w : world) :
  exists v w',
    get_secret env name w = (Normal v, w')
    /\ match secret_value env name with
       | inl secret =>
           v = secret /\ effects_of (get_secret env name) w = [GetSecret name]
       | inr e =>
           v = VNone
           /\ effects_of (get_secret env name) w
              = [ GetSecret name;
                  Print ("ERROR retrieving secret " ++ name ++ ": " ++ exn_text e) ]
       end.
Proof.
  destruct (secret_value env name) as [secret | e] eqn:E.
  - exists secret, (record_effect (GetSecret name) w).
    assert (H : get_secret env name w
                = (Normal secret, record_effect (GetSecret name) w)).
    { unfold get_secret, bind, emit. now rewrite E. }
    split; [exact H |]. split; [reflexivity |].
    now apply (effects_of_result _ _ _ _ _ H).
  - set (line := "ERROR retrieving secret " ++ name ++ ": " ++ exn_text e).
    exists VNone, (record_effect (Print line) (record_effect (GetSecret name) w)).
    assert (H : get_secret env name w
                = (Normal VNone,
                   record_effect (Print line) (record_effect (GetSecret name) w))).
    { unfold get_secret, bind, emit. now rewrite E. }
    split; [exact H |]. split; [reflexivity |].
    apply (effects_of_result _ _ _ _ _ H).
    cbn [log record_effect]. now rewrite <- app_assoc.
Qed.

(** ** Exit paths of [lambda_handler] *)

(** X2.  Once both connections are open, and as long as rollbacks and
    closes do not raise, [lambda_handler] returns ['OK'] for every event
    value whatsoever, whether the batch was committed or rolled back. *)
Theorem handler_always_returns_ok env (event context : value) (w0 w : world) :
  open_connections env w0 = (Normal tt, w) ->
  (forall history s c, c = Rollback \/ c = CloseCursor \/ c = CloseConnection ->
                       exists n, respond env history s c = Done n) ->
  exists w', lambda_handler env event context w0 = (Normal (VStr "OK"), w').
Proof.
  intros Hopen Hok.
  unfold lambda_handler, bind at 1. rewrite Hopen.
  unfold bind, try_except_finally.
  destruct (process_records env event w) as [[[] | e] w1].
  - destruct (close_all_run env w1) as (w2 & H & _); [intuition |].
    rewrite H. eexists; reflexivity.
  - destruct (on_error_run env e w1) as (w2 & H2 & _); [auto |].
    destruct (close_all_run env w2) as (w3 & H3 & _); [intuition |].
    rewrite H2, H3. eexists; reflexivity.
Qed.

Lemma handler_always_returns_ok_witness :
  exists w', lambda_handler failing_env (VList [VInt 1]) VNone initial_world
             = (Normal (VStr "OK"), w').
Proof.
  apply (handler_always_returns_ok failing_env (VList [VInt 1]) VNone initial_world
           (snd (open_connections failing_env initial_world))).
  - reflexivity.
  - intros history s c [-> | [-> | ->]]; exists 1; now destruct s.
Defined.

Lemma close_calls_of_setup (l : list effect) :
  Forall setup_effect l -> close_calls l = [].
Proof. intro H. unfold close_calls. now rewrite setup_has_no_calls. Qed.

Lemma close_all_effects env (w : world) :
  (forall history s c, c = CloseCursor \/ c = CloseConnection ->
                       exists n, respond env history s c = Done n) ->
  effects_of (close_all env) w
  = [ Call Redshift CloseCursor; Call Redshift CloseConnection;
      Call Oracle CloseCursor; Call Oracle CloseConnection;
      Print "Connections closed." ].
Proof.
  intro Hok. destruct (close_all_run env w Hok) as (w' & H & L).
  exact (effects_of_result _ _ _ _ _ H L).
Qed.

(** X3.  Once both connections are open, and as long as the closes do not
    raise, every run of [lambda_handler] - committed, rolled back, or with
    a rollback that raises - closes the Redshift cursor, the Redshift
    connection, the Oracle cursor and the Oracle connection, in this
    order, once each. *)
Theorem handler_closes_each_once env (event context : value) (w0 w : world) :
  open_connections env w0 = (Normal tt, w) ->
  (forall history s c, c = CloseCursor \/ c = CloseConnection ->
                       exists n, respond env history s c = Done n) ->
  close_calls (effects_of (lambda_handler env event context) w0) = the_four_closes.
Proof.
  intros Hopen Hok.
  rewrite (handler_effects_of_lambda env event context w0 w Hopen).
  rewrite close_calls_app, close_calls_of_setup
    by apply emits_only_effects, emits_open_connections_setup.
  rewrite effects_of_try
    by auto using grows_process_records, grows_on_error, grows_close_all.
  rewrite close_calls_app.
  destruct (try_body_never_closes _
              (emits_only_effects _ _ w (emits_process_records env event))) as [-> _].
  destruct (process_records env event w) as [[[] | e] w1].
  - now rewrite close_all_effects.
  - rewrite close_calls_app, close_all_effects by assumption.
    now rewrite (handler_never_closes _
                   (emits_only_effects _ _ w1 (emits_on_error env e))).
Qed.

Lemma handler_closes_each_once_witness :
  close_calls (effects_of (lambda_handler failing_env
                             (batch [change_event "insert" sample_doc sample_doc_key])
                             VNone) initial_world)
  = the_four_closes.
Proof.
  apply (handler_closes_each_once failing_env _ VNone initial_world
           (snd (open_connections failing_env initial_world))).
  - reflexivity.
  - intros history s c [-> | ->]; exists 1; now destruct s.
Defined.

Lemma close_all_first_close_fails env (e : exn) (w : world) :
  (forall history, respond env history Redshift CloseCursor = Fails e) ->
  close_all env w = (Raised e, record_effect (Call Redshift CloseCursor) w).
Proof.
  intro H. unfold close_all, bind at 1, db_call. now rewrite H.
Qed.

(** X4.  If closing the Redshift cursor raises, the [finally] block stops
    there: the exception leaves [lambda_handler] in place of ['OK'], and
    the Redshift connection, the Oracle cursor and the Oracle connection
    are not closed. *)
Theorem failed_close_skips_the_rest env (event context : value) (w0 w : world)
    (e : exn) :
  open_connections env w0 = (Normal tt, w) ->
  (forall history, respond env history Redshift CloseCursor = Fails e) ->
  fst (lambda_handler env event context w0) = Raised e
  /\ close_calls (effects_of (lambda_handler env event context) w0)
     = [(Redshift, CloseCursor)].
Proof.
  intros Hopen Hfail.
  assert (Hfx : forall w', effects_of (close_all env) w' = [Call Redshift CloseCursor]).
  { intro w'. apply effects_of_result
      with (r := Raised e) (w' := record_effect (Call Redshift CloseCursor) w');
      [now apply close_all_first_close_fails | reflexivity]. }
  split.
  - unfold lambda_handler, bind at 1. rewrite Hopen.
    unfold bind, try_except_finally.
    destruct (process_records env event w) as [[[] | e0] w1].
    + now rewrite (close_all_first_close_fails env e w1 Hfail).
    + destruct (on_error env e0 w1) as [[[] | e'] w2];
        now rewrite (close_all_first_close_fails env e w2 Hfail).
  - rewrite (handler_effects_of_lambda env event context w0 w Hopen).
    rewrite close_calls_app, close_calls_of_setup
      by apply emits_only_effects, emits_open_connections_setup.
    rewrite effects_of_try
      by auto using grows_process_records, grows_on_error, grows_close_all.
    rewrite close_calls_app.
    destruct (try_body_never_closes _
                (emits_only_effects _ _ w (emits_process_records env event)))
      as [-> _].
    destruct (process_records env event w) as [[[] | e0] w1].
    + now rewrite Hfx.
    + rewrite close_calls_app, Hfx.
      now rewrite (handler_never_closes _
                     (emits_only_effects _ _ w1 (emits_on_error env e0))).
Qed.

Lemma failed_close_skips_the_rest_witness :
  fst (lambda_handler failing_close_env (batch []) VNone initial_world)
  = Raised (Exn "InterfaceError" "cursor already closed")
  /\ close_calls (effects_of (lambda_handler failing_close_env (batch []) VNone)
                    initial_world)
     = [(Redshift, CloseCursor)].
Proof.
  apply (failed_close_skips_the_rest failing_close_env (batch []) VNone initial_world
           (snd (open_connections failing_close_env initial_world))).
  - reflexivity.
  - reflexivity.
Defined.

(** ** Commit and rollback *)

Lemma process_records_split env (event : value) (w : world) :
  process_records env event w
  = (records_loop env event ;;
     db_call env Redshift Commit ;;
     db_call env Oracle Commit) w.
Proof.
  rewrite process_records_loop. unfold records_loop, bind, print, emit.
  destruct (get event "events" (VList []) (record_effect (Print "processing records") w))
    as [[events | e] w1]; [| reflexivity].
  destruct (iterate events w1) as [[records | e] w2]; [| reflexivity].
  destruct (for_each records (loop_body env) w2) as [[[] | e] w3]; reflexivity.
Qed.

(** X5.  The two commits are not atomic.  When the exception that leaves
    the [try] body is the one raised by the Oracle commit, the Redshift
    commit has already returned: what precedes it in the run are only
    prints and statements, and the handler then calls the rollbacks, closes
    everything and returns ['OK']. *)
Theorem oracle_commit_failure_after_redshift_commit env (event context : value)
    (w0 w w1 : world) (e : exn) (p : list effect) :
  open_connections env w0 = (Normal tt, w) ->
  process_records env event w = (Raised e, w1) ->
  effects_of (process_records env event) w = (p ++ [Call Oracle Commit])%list ->
  (forall history s c, c = Rollback \/ c = CloseCursor \/ c = CloseConnection ->
                       exists n, respond env history s c = Done n) ->
  exists p' w2,
    lambda_handler env event context w0 = (Normal (VStr "OK"), w2)
    /\ Forall statement_effect p'
    /\ (exists n, respond env (log w ++ p') Redshift Commit = Done n)
    /\ log w2 = (log w ++ p'
                 ++ [ Call Redshift Commit;
                      Call Oracle Commit;
                      Print ("ERROR during processing: " ++ exn_text e);
                      Call Redshift Rollback;
                      Call Oracle Rollback;
                      Call Redshift CloseCursor;
                      Call Redshift CloseConnection;
                      Call Oracle CloseCursor;
                      Call Oracle CloseConnection;
                      Print "Connections closed." ])%list.
Proof.
  intros Hopen Hbody Heff Hok.
  assert (Hshape : exists p',
             Forall statement_effect p'
             /\ (exists n, respond env (log w ++ p') Redshift Commit = Done n)
             /\ log w1 = (log w ++ p' ++ [Call Redshift Commit; Call Oracle Commit])%list).
  { pose proof (emits_records_loop env event w) as (dA & LA & FA).
    unfold effects_of in Heff. rewrite process_records_split in Hbody, Heff.
    unfold bind at 1 in Hbody. unfold bind at 1 in Heff.
    destruct (records_loop env event w) as [[[] | eA] wA]; cbn [snd] in LA.
    2: { (* the loop raised: its effects hold no commit *)
         cbn [snd] in Heff. rewrite LA, skipn_log_app in Heff. subst dA.
         apply Forall_app in FA. destruct FA as [_ FA].
         inversion FA as [| ? ? Hc _]. contradiction. }
    unfold bind at 1, db_call in Hbody. unfold bind at 1, db_call in Heff.
    rewrite LA in Hbody, Heff.
    destruct (respond env (log w ++ dA) Redshift Commit) as [n | eR] eqn:ER.
    2: { cbn [snd log record_effect] in Heff.
         rewrite LA, <- app_assoc, skipn_log_app in Heff.
         apply app_inj_tail in Heff. destruct Heff as [_ Heff]. discriminate Heff. }
    cbn [log record_effect] in Hbody, Heff. rewrite LA in Hbody, Heff.
    destruct (respond env ((log w ++ dA) ++ [Call Redshift Commit]) Oracle Commit)
      as [m | eO]; [discriminate Hbody |].
    injection Hbody as _ <-. exists dA. split; [exact FA |].
    split; [eauto |].
    cbn [log record_effect]. rewrite LA. now rewrite <- !app_assoc. }
  destruct Hshape as (p' & Fp & HR & L1).
  destruct (on_error_run env e w1) as (w2 & Herr & Lerr); [auto |].
  destruct (close_all_run env w2) as (w3 & Hclose & Lclose); [intuition |].
  exists p', w3. split; [| split; [exact Fp | split; [exact HR |]]].
  - unfold lambda_handler, bind at 1. rewrite Hopen.
    unfold bind, try_except_finally. now rewrite Hbody, Herr, Hclose.
  - rewrite Lclose, Lerr, L1. now rewrite <- !app_assoc.
Qed.

Lemma oracle_commit_failure_after_redshift_commit_witness :
  exists p' w2,
    lambda_handler failing_commit_env (batch []) VNone initial_world
    = (Normal (VStr "OK"), w2)
    /\ Forall statement_effect p'
    /\ (exists n, respond failing_commit_env
                    (log (snd (open_connections failing_commit_env initial_world)) ++ p')
                    Redshift Commit = Done n)
    /\ log w2 = (log (snd (open_connections failing_commit_env initial_world)) ++ p'
                 ++ [ Call Redshift Commit;
                      Call Oracle Commit;
                      Print ("ERROR during processing: "
                             ++ exn_text (Exn "DatabaseError" "ORA-02091"));
                      Call Redshift Rollback;
                      Call Oracle Rollback;
                      Call Redshift CloseCursor;
                      Call Redshift CloseConnection;
                      Call Oracle CloseCursor;
                      Call Oracle CloseConnection;
                      Print "Connections closed." ])%list.
Proof.
  pose (w := snd (open_connections failing_commit_env initial_world)).
  apply (oracle_commit_failure_after_redshift_commit failing_commit_env (batch [])
           VNone initial_world w
           (snd (process_records failing_commit_env (batch []) w))
           (Exn "DatabaseError" "ORA-02091")
           [Print "processing records"; Call Redshift Commit]).
  - reflexivity.
  - reflexivity.
  - reflexivity.
  - intros history s c [-> | [-> | ->]]; exists 1; now destruct s.
Defined.

Lemma rollback_calls_nil_of (P : effect -> Prop) (l : list effect) :
  (forall e, P e -> rollback_calls [e] = []) -> Forall P l -> rollback_calls l = [].
Proof.
  intros HP. induction 1 as [| e l He _ IH]; [reflexivity |].
  change (e :: l) with ([e] ++ l)%list.
  now rewrite rollback_calls_app, IH, (HP e He).
Qed.

Lemma emits_close_all env :
  emits_only (fun e => rollback_calls [e] = []) (close_all env).
Proof. unfold close_all. emits_auto. Qed.

Lemma on_error_starts_with_rollback env (e : exn) (w : world) :
  exists rest,
    effects_of (on_error env e) w
    = Print ("ERROR during processing: " ++ exn_text e)
      :: Call Redshift Rollback :: rest.
Proof.
  unfold effects_of, on_error, bind, print, emit, db_call.
  cbn [log record_effect].
  destruct (respond env _ Redshift Rollback).
  - cbn [log record_effect].
    destruct (respond env _ Oracle Rollback); cbn [snd log record_effect];
      rewrite <- !app_assoc, skipn_log_app; eexists; reflexivity.
  - cbn [snd log record_effect].
    rewrite <- !app_assoc, skipn_log_app; eexists; reflexivity.
Qed.

(** X6.  Once both connections are open, a run of [lambda_handler] calls
    a rollback exactly when an exception left the [try] body: a batch that
    was processed and committed is never rolled back, and a batch that
    raised always has the Redshift rollback attempted. *)
Theorem rollback_exactly_after_failure env (event context : value) (w0 w : world) :
  open_connections env w0 = (Normal tt, w) ->
  rollback_calls (effects_of (lambda_handler env event context) w0) = []
  <-> exists w1, process_records env event w = (Normal tt, w1).
Proof.
  intro Hopen.
  rewrite (handler_effects_of_lambda env event context w0 w Hopen).
  rewrite rollback_calls_app.
  assert (Hs : rollback_calls (effects_of (open_connections env) w0) = []).
  { unfold rollback_calls.
    now rewrite setup_has_no_calls
      by apply emits_only_effects, emits_open_connections_setup. }
  rewrite Hs. cbn [app].
  rewrite effects_of_try
    by auto using grows_process_records, grows_on_error, grows_close_all.
  rewrite rollback_calls_app.
  destruct (try_body_never_closes _
              (emits_only_effects _ _ w (emits_process_records env event))) as [_ ->].
  cbn [app].
  assert (Hf : forall w', rollback_calls (effects_of (close_all env) w') = []).
  { intro w'. apply (rollback_calls_nil_of (fun e => rollback_calls [e] = [])); auto.
    apply emits_only_effects, emits_close_all. }
  destruct (process_records env event w) as [[[] | e] w1].
  - split; [eauto | intros _; apply Hf].
  - split; [| intros [w' H]; discriminate H].
    destruct (on_error_starts_with_rollback env e w1) as [rest ->].
    discriminate.
Qed.

Lemma rollback_exactly_after_failure_witness :
  rollback_calls (effects_of (lambda_handler mock_env (batch mixed_records) VNone)
                    initial_world) = [].
Proof.
  apply (proj2 (rollback_exactly_after_failure mock_env (batch mixed_records) VNone
                  initial_world (snd (open_connections mock_env initial_world))
                  eq_refl)).
  eexists. reflexivity.
Defined.

(** ** Set-up failures *)

(** X7.  Whatever makes the set-up raise (a secret that was not retrieved,
    a key missing from a secret, a connect that raises), the exception
    leaves [lambda_handler] unchanged and the whole run makes no driver
    call: nothing is rolled back and nothing is closed, even when the
    Redshift connection was already open. *)
Theorem setup_failure_closes_nothing env (event context : value) (w0 w1 : world)
    (e : exn) :
  open_connections env w0 = (Raised e, w1) ->
  lambda_handler env event context w0 = (Raised e, w1)
  /\ db_calls (effects_of (lambda_handler env event context) w0) = [].
Proof.
  intro Hopen.
  assert (H : lambda_handler env event context w0 = (Raised e, w1)).
  { unfold lambda_handler, bind at 1. now rewrite Hopen. }
  split; [exact H |].
  apply setup_has_no_calls.
  pose proof (emits_only_effects setup_effect _ w0 (emits_open_connections_setup env))
    as F.
  unfold effects_of in *. rewrite H. now rewrite Hopen in F.
Qed.

Lemma setup_failure_closes_nothing_witness :
  lambda_handler no_oracle_secret_env (batch mixed_records) VNone initial_world
  = (Raised (NotSubscriptable VNone),
     snd (open_connections no_oracle_secret_env initial_world))
  /\ db_calls (effects_of (lambda_handler no_oracle_secret_env (batch mixed_records)
                             VNone) initial_world) = [].
Proof.
  apply (setup_failure_closes_nothing no_oracle_secret_env (batch mixed_records) VNone
           initial_world).
  reflexivity.
Defined.

Lemma get_secret_failed env (name : string) (e : exn) (w : world) :
  secret_value env name = inr e ->
  get_secret env name w
  = (Normal VNone,
     record_effect (Print ("ERROR retrieving secret " ++ name ++ ": " ++ exn_text e))
       (record_effect (GetSecret name) w)).
Proof. intro E. unfold get_secret, bind, emit. now rewrite E. Qed.

(** X8.  When the Redshift secret cannot be retrieved, [lambda_handler]
    still asks for the Oracle secret and then raises the [TypeError] of
    subscripting [None]; no connection is attempted on either store. *)
Theorem missing_redshift_secret_raises_before_connecting env (event context : value)
    (w : world) (e0 : exn) :
  secret_value env "RedshiftDEV" = inr e0 ->
  fst (lambda_handler env event context w) = Raised (NotSubscriptable VNone)
  /\ forall s kwargs,
       ~ In (Connect s kwargs) (effects_of (lambda_handler env event context) w).
Proof.
  intro E.
  assert (H : exists w1 tail,
             open_connections env w = (Raised (NotSubscriptable VNone), w1)
             /\ log w1 = (log w ++ GetSecret "RedshiftDEV"
                          :: Print ("ERROR retrieving secret RedshiftDEV: "
                                    ++ exn_text e0)
                          :: GetSecret "Oracle-DB-AMC" :: tail)%list
             /\ forall s kwargs, ~ In (Connect s kwargs) tail).
  { unfold open_connections. unfold bind at 1.
    rewrite (get_secret_failed env _ e0 w E).
    unfold bind at 1.
    destruct (secret_value env "Oracle-DB-AMC") as [secret | e1] eqn:E1.
    - exists (record_effect (GetSecret "Oracle-DB-AMC")
                (record_effect (Print ("ERROR retrieving secret RedshiftDEV: "
                                       ++ exn_text e0))
                   (record_effect (GetSecret "RedshiftDEV") w))), [].
      split; [unfold get_secret, bind, emit; now rewrite E1 |].
      split; [cbn [log record_effect]; now rewrite <- !app_assoc | auto].
    - rewrite (get_secret_failed env _ e1 _ E1).
      eexists. exists [Print ("ERROR retrieving secret Oracle-DB-AMC: " ++ exn_text e1)].
      split; [reflexivity |].
      split; [cbn [log record_effect]; now rewrite <- !app_assoc |].
      intros s kwargs [Hc | []]. discriminate Hc. }
  destruct H as (w1 & tail & Hopen & L & Hno).
  assert (Hrun : lambda_handler env event context w
                 = (Raised (NotSubscriptable VNone), w1)).
  { unfold lambda_handler, bind at 1. now rewrite Hopen. }
  split; [now rewrite Hrun |].
  rewrite (effects_of_result _ _ _ _ _ Hrun L).
  intros s kwargs [Hc | [Hc | [Hc | Hc]]]; try discriminate Hc.
  exact (Hno s kwargs Hc).
Qed.

Lemma missing_redshift_secret_raises_before_connecting_witness :
  fst (lambda_handler no_redshift_secret_env (batch mixed_records) VNone initial_world)
  = Raised (NotSubscriptable VNone)
  /\ forall s kwargs,
       ~ In (Connect s kwargs)
            (effects_of (lambda_handler no_redshift_secret_env (batch mixed_records)
                           VNone) initial_world).
Proof.
  apply (missing_redshift_secret_raises_before_connecting no_redshift_secret_env
           (batch mixed_records) VNone initial_world
           (Exn "ClientError" "ResourceNotFoundException")).
  reflexivity.
Defined.

Lemma get_secret_found env (name : string) (secret : value) (w : world) :
  secret_value env name = inl secret ->
  get_secret env name w = (Normal secret, record_effect (GetSecret name) w).
Proof. intro E. unfold get_secret, bind, emit. now rewrite E. Qed.

Lemma get_secret_returns env (name : string) (w : world) :
  exists v w' tail,
    get_secret env name w = (Normal v, w')
    /\ log w' = (log w ++ tail)%list /\ Forall no_connect tail.
Proof.
  destruct (secret_value env name) as [secret | e] eqn:E.
  - rewrite (get_secret_found env name secret w E).
    do 3 eexists. split; [reflexivity |]. split; [reflexivity |].
    repeat constructor.
  - rewrite (get_secret_failed env name e w E).
    do 3 eexists. split; [reflexivity |].
    split; [cbn [log record_effect]; now rewrite <- app_assoc |].
    repeat constructor.
Qed.

(** X9.  When the Redshift secret is a dict that lacks one of the keys
    ['dbname'], ['username'], ['password'], ['host'], ['port'],
    [lambda_handler] raises the [KeyError] of a missing key - the first one
    in that order - and no connection is attempted on either store. *)
Theorem incomplete_redshift_secret_raises_key_error env (event context : value)
    (w : world) (d : dict) :
  secret_value env "RedshiftDEV" = inl (VDict d) ->
  (exists k, In k redshift_secret_keys /\ lookup k d = None) ->
  exists k before after,
    redshift_secret_keys = (before ++ k :: after)%list
    /\ Forall (fun k' => lookup k' d <> None) before
    /\ lookup k d = None
    /\ fst (lambda_handler env event context w) = Raised (KeyError k)
    /\ Forall no_connect (effects_of (lambda_handler env event context) w).
Proof.
  intros E Hmissing.
  destruct (get_secret_returns env "Oracle-DB-AMC"
              (record_effect (GetSecret "RedshiftDEV") w))
    as (v & w2 & tail & HO & L & Hno).
  assert (Hfx : forall k e w',
             lambda_handler env event context w = (Raised e, w') -> w' = w2 ->
             e = KeyError k ->
             fst (lambda_handler env event context w) = Raised (KeyError k)
             /\ Forall no_connect (effects_of (lambda_handler env event context) w)).
  { intros k e w' Hrun -> ->. split; [now rewrite Hrun |].
    erewrite effects_of_result; [| exact Hrun | ].
    2: { rewrite L. cbn [log record_effect]. rewrite <- app_assoc. reflexivity. }
    constructor; [exact I | exact Hno]. }
  assert (Hopen : forall e,
             open_connections env w = (Raised e, w2) ->
             lambda_handler env event context w = (Raised e, w2)).
  { intros e H. unfold lambda_handler, bind at 1. now rewrite H. }
  unfold redshift_secret_keys in *.
  destruct (lookup "dbname" d) as [v1 |] eqn:K1.
  2: { exists "dbname", [], ["username"; "password"; "host"; "port"].
       split; [reflexivity |]. split; [constructor |]. split; [exact K1 |].
       eapply Hfx; [apply Hopen | reflexivity | reflexivity].
       unfold open_connections. unfold bind at 1.
       rewrite (get_secret_found env _ _ w E). unfold bind at 1. rewrite HO.
       unfold bind at 1, subscript at 1. now rewrite K1. }
  destruct (lookup "username" d) as [v2 |] eqn:K2.
  2: { exists "username", ["dbname"], ["password"; "host"; "port"].
       split; [reflexivity |].
       split; [repeat constructor; congruence |]. split; [exact K2 |].
       eapply Hfx; [apply Hopen | reflexivity | reflexivity].
       unfold open_connections. unfold bind at 1.
       rewrite (get_secret_found env _ _ w E). unfold bind at 1. rewrite HO.
       unfold bind at 1, subscript at 1. rewrite K1.
       unfold ret at 1. unfold bind at 1, subscript at 1. now rewrite K2. }
  destruct (lookup "password" d) as [v3 |] eqn:K3.
  2: { exists "password", ["dbname"; "username"], ["host"; "port"].
       split; [reflexivity |].
       split; [repeat constructor; congruence |]. split; [exact K3 |].
       eapply Hfx; [apply Hopen | reflexivity | reflexivity].
       unfold open_connections. unfold bind at 1.
       rewrite (get_secret_found env _ _ w E). unfold bind at 1. rewrite HO.
       unfold bind at 1, subscript at 1. rewrite K1.
       unfold ret at 1. unfold bind at 1, subscript at 1. rewrite K2.
       unfold ret at 1. unfold bind at 1, subscript at 1. now rewrite K3. }
  destruct (lookup "host" d) as [v4 |] eqn:K4.
  2: { exists "host", ["dbname"; "username"; "password"], ["port"].
       split; [reflexivity |].
       split; [repeat constructor; congruence |]. split; [exact K4 |].
       eapply Hfx; [apply Hopen | reflexivity | reflexivity].
       unfold open_connections. unfold bind at 1.
       rewrite (get_secret_found env _ _ w E). unfold bind at 1. rewrite HO.
       unfold bind at 1, subscript at 1. rewrite K1.
       unfold ret at 1. unfold bind at 1, subscript at 1. rewrite K2.
       unfold ret at 1. unfold bind at 1, subscript at 1. rewrite K3.
       unfold ret at 1. unfold bind at 1, subscript at 1. now rewrite K4. }
  destruct (lookup "port" d) as [v5 |] eqn:K5.
  2: { exists "port", ["dbname"; "username"; "password"; "host"], [].
       split; [reflexivity |].
       split; [repeat constructor; congruence |]. split; [exact K5 |].
       eapply Hfx; [apply Hopen | reflexivity | reflexivity].
       unfold open_connections. unfold bind at 1.
       rewrite (get_secret_found env _ _ w E). unfold bind at 1. rewrite HO.
       unfold bind at 1, subscript at 1. rewrite K1.
       unfold ret at 1. unfold bind at 1, subscript at 1. rewrite K2.
       unfold ret at 1. unfold bind at 1, subscript at 1. rewrite K3.
       unfold ret at 1. unfold bind at 1, subscript at 1. rewrite K4.
       unfold ret at 1. unfold bind at 1, subscript at 1. now rewrite K5. }
  destruct Hmissing as (k & Hk & Hnone).
  simpl in Hk. intuition (subst; congruence).
Qed.

Lemma incomplete_redshift_secret_raises_key_error_witness :
  exists k before after,
    redshift_secret_keys = (before ++ k :: after)%list
    /\ Forall (fun k' => lookup k' [ ("dbname", VStr "mockdb");
                                     ("username", VStr "mockuser");
                                     ("password", VStr "mockpass") ] <> None) before
    /\ lookup k [ ("dbname", VStr "mockdb"); ("username", VStr "mockuser");
                  ("password", VStr "mockpass") ] = None
    /\ fst (lambda_handler short_secret_env (batch []) VNone initial_world)
       = Raised (KeyError k)
    /\ Forall no_connect
         (effects_of (lambda_handler short_secret_env (batch []) VNone) initial_world).
Proof.
  apply (incomplete_redshift_secret_raises_key_error short_secret_env (batch []) VNone
           initial_world).
  - reflexivity.
  - exists "port". split; [simpl; tauto | reflexivity].
Defined.

(** ** What a run never does *)

Lemma emits_open_connections_run env : emits_only run_effect (open_connections env).
Proof.
  unfold open_connections, open_cursor, db_connect, get_secret.
  emits_auto.
Qed.

Lemma emits_close_all_run env : emits_only run_effect (close_all env).
Proof. unfold close_all. emits_auto. Qed.

Lemma emits_lambda_handler env (event context : value) :
  emits_only run_effect (lambda_handler env event context).
Proof.
  unfold lambda_handler.
  apply emits_bind; [apply emits_open_connections_run | intros _].
  apply emits_bind; [| intros _; apply emits_ret].
  apply emits_try.
  - apply (emits_only_weaken try_body_effect); [apply try_body_is_run |].
    apply emits_process_records.
  - intro e. apply (emits_only_weaken handler_effect); [apply handler_is_run |].
    apply emits_on_error.
  - apply emits_close_all_run.
Qed.

(** X10.  The Oracle connection is always asked for the host
    ['LVEXACCT-SCAN']: whatever the Oracle secret holds under ['host'], and
    even when it has no such entry, that value is not used. *)
Theorem oracle_host_is_fixed env (event context : value) (w : world) (kwargs : dict) :
  In (Connect Oracle kwargs) (effects_of (lambda_handler env event context) w) ->
  lookup "host" kwargs = Some (VStr "LVEXACCT-SCAN").
Proof.
  intro Hin.
  pose proof (emits_only_effects _ _ w (emits_lambda_handler env event context)) as F.
  rewrite Forall_forall in F. exact (F _ Hin).
Qed.

Lemma oracle_host_is_fixed_witness :
  lookup "host" [ ("user", VStr "oracleuser"); ("password", VStr "oraclepass");
                  ("host", VStr "LVEXACCT-SCAN"); ("port", VInt 1521);
                  ("service_name", VStr "mockservice") ]
  = Some (VStr "LVEXACCT-SCAN").
Proof.
  apply (oracle_host_is_fixed mock_env (batch []) VNone initial_world).
  vm_compute. tauto.
Defined.

(** X11.  In a whole run of [lambda_handler], for any batch and any
    environment, the only statements executed on Redshift are the INSERT
    and the UPDATE of [documentdb.roles], and the only statements executed
    on Oracle are the MERGE and the DELETE of [CFG_ROLE]: nothing is ever
    deleted from the warehouse. *)
Theorem each_store_sees_its_own_statements env (event context : value) (w : world)
    (s : store) (sql : string) (params : sql_params) :
  In (Call s (Execute sql params)) (effects_of (lambda_handler env event context) w) ->
  match s with
  | Redshift => sql = insert_sql \/ sql = update_sql
  | Oracle => sql = merge_sql \/ sql = delete_sql
  end.
Proof.
  intro Hin.
  pose proof (emits_only_effects _ _ w (emits_lambda_handler env event context)) as F.
  rewrite Forall_forall in F. specialize (F _ Hin). now destruct s.
Qed.

Lemma each_store_sees_its_own_statements_witness :
  delete_sql = merge_sql \/ delete_sql = delete_sql.
Proof.
  apply (each_store_sees_its_own_statements mock_env
           (batch [change_event "delete" [] sample_doc_key]) VNone initial_world
           Oracle delete_sql (Named [("id", VStr "admin")])).
  vm_compute. tauto.
Defined.

(** X12.  [process_event] only prints and executes statements: for any
    record and any environment it never commits, rolls back, closes,
    connects or fetches a secret, and what it executes is an INSERT or
    UPDATE on the Redshift cursor or a MERGE or DELETE on the Oracle
    cursor. *)
Theorem process_event_only_prints_and_executes env (record : value) (w : world) :
  Forall statement_effect (effects_of (process_event env record Redshift Oracle) w).
Proof. apply emits_only_effects, emits_process_event. Qed.

(** ** More on one event *)

Lemma insert_redshift_role_not_dict env cursor (role : value) (w : world) :
  is_dict role = false ->
  insert_redshift_role env cursor role w = (Raised (AttributeError role "get"), w).
Proof. destruct role; (discriminate || reflexivity). Qed.

Lemma update_redshift_role_not_dict env cursor (role : value) (w : world) :
  is_dict role = false ->
  update_redshift_role env cursor role w = (Raised (AttributeError role "get"), w).
Proof. destruct role; (discriminate || reflexivity). Qed.

Lemma insert_calls_any_role env (role : value) (w : world) :
  exists rs,
    db_calls (effects_of (insert_redshift_role env Redshift role) w)
    = map (pair Redshift) rs /\ (length rs <= 2)%nat.
Proof.
  destruct (is_dict role) eqn:D.
  - destruct role; try discriminate D.
    rewrite insert_redshift_role_db_calls. eexists; split; [reflexivity |].
    destruct (truthy (canonical_id entries)); simpl; lia.
  - rewrite (effects_of_silent _ _ _ (insert_redshift_role_not_dict env _ _ w D)).
    exists []. split; [reflexivity | simpl; lia].
Qed.

Lemma update_calls_any_role env (role : value) (w : world) :
  exists rs,
    db_calls (effects_of (update_redshift_role env Redshift role) w)
    = map (pair Redshift) rs /\ (length rs <= 2)%nat.
Proof.
  destruct (is_dict role) eqn:D.
  - destruct role; try discriminate D.
    rewrite update_redshift_role_db_calls. eexists; split; [reflexivity |].
    destruct (truthy (canonical_id entries)); [| simpl; lia].
    destruct (respond env (log w) Redshift (update_call entries)) as [n | e];
      [destruct (n =? 0) |]; simpl; lia.
  - rewrite (effects_of_silent _ _ _ (update_redshift_role_not_dict env _ _ w D)).
    exists []. split; [reflexivity | simpl; lia].
Qed.

Lemma oracle_calls_any_role env (role operation_type : value) (w : world) :
  exists os,
    db_calls (effects_of (update_oracle_role env Oracle role operation_type) w)
    = map (pair Oracle) os /\ (length os <= 1)%nat.
Proof.
  destruct (is_dict role) eqn:D.
  - destruct role; try discriminate D.
    rewrite update_oracle_role_calls. eexists; split; [reflexivity |].
    unfold config_action.
    repeat match goal with |- context [if ?b then _ else _] => destruct b end;
      simpl; lia.
  - rewrite update_oracle_role_effects_not_dict
      by (intros d ->; discriminate D).
    exists []. split; [reflexivity | simpl; lia].
Qed.

Lemma both_sinks_in_order env (sink : M unit) (role operation_type : value)
    (w : world) :
  grows sink ->
  (exists rs, db_calls (effects_of sink w) = map (pair Redshift) rs
              /\ (length rs <= 2)%nat) ->
  exists rs os,
    db_calls (effects_of (sink ;; update_oracle_role env Oracle role operation_type) w)
    = (map (pair Redshift) rs ++ map (pair Oracle) os)%list
    /\ (length rs <= 2)%nat /\ (length os <= 1)%nat.
Proof.
  intros Hg (rs & Hrs & Lrs).
  rewrite effects_of_bind by (intros; auto with grows).
  rewrite db_calls_app, Hrs. exists rs.
  destruct (sink w) as [[[] | e] w1].
  - destruct (oracle_calls_any_role env role operation_type w1) as (os & Hos & Los).
    exists os. now rewrite Hos.
  - exists []. repeat split; [assumption | simpl; lia].
Qed.

(** X13.  Within one event the warehouse always comes first: for any record
    and any environment, the driver calls of [process_event] are at most
    two calls on Redshift followed by at most one call on Oracle. *)
Theorem warehouse_before_config env (record : value) (w : world) :
  exists rs os,
    db_calls (effects_of (process_event env record Redshift Oracle) w)
    = (map (pair Redshift) rs ++ map (pair Oracle) os)%list
    /\ (length rs <= 2)%nat /\ (length os <= 1)%nat.
Proof.
  assert (Hnone : forall m : M unit,
             effects_of m w = [] ->
             exists rs os,
               db_calls (effects_of m w)
               = (map (pair Redshift) rs ++ map (pair Oracle) os)%list
               /\ (length rs <= 2)%nat /\ (length os <= 1)%nat).
  { intros m ->. exists [], []. repeat split; simpl; lia. }
  destruct record as [| | | | | r];
    try (apply Hnone; eapply effects_of_silent; reflexivity).
  destruct (dict_get r "event" (VDict [])) as [| | | | | ev] eqn:Hev;
    try (apply Hnone; eapply effects_of_silent;
         unfold process_event, get, bind, ret; rewrite Hev; reflexivity).
  rewrite (effects_of_ext _ _ w (process_event_unfold env r ev w Hev)).
  destruct (eq_str (dict_get ev "operationType" VNone) "insert").
  { apply both_sinks_in_order; [auto with grows | apply insert_calls_any_role]. }
  destruct (eq_str (dict_get ev "operationType" VNone) "update"
            || eq_str (dict_get ev "operationType" VNone) "replace").
  { apply both_sinks_in_order; [auto with grows | apply update_calls_any_role]. }
  destruct (eq_str (dict_get ev "operationType" VNone) "delete").
  - destruct (oracle_calls_any_role env (dict_get ev "documentKey" (VDict []))
                (dict_get ev "operationType" VNone) w) as (os & Hos & Los).
    exists [], os. rewrite Hos. repeat split; [simpl; lia | assumption].
  - rewrite effects_of_print. exists [], []. repeat split; simpl; lia.
Qed.

Lemma insert_redshift_role_fails env (doc : dict) (w : world) (e : exn) :
  truthy (canonical_id doc) = true ->
  respond env (log w) Redshift (insert_call doc) = Fails e ->
  insert_redshift_role env Redshift (VDict doc) w
  = (Raised e, record_effect (Call Redshift (insert_call doc)) w).
Proof.
  intros T H. unfold insert_redshift_role. unfold bind at 1.
  rewrite extract_id_run, T. cbv beta iota delta [negb].
  unfold get, bind, ret, execute, db_call. fold (insert_call doc). now rewrite H.
Qed.

Lemma update_redshift_role_fails env (doc : dict) (w : world) (e : exn) :
  truthy (canonical_id doc) = true ->
  respond env (log w) Redshift (update_call doc) = Fails e ->
  update_redshift_role env Redshift (VDict doc) w
  = (Raised e, record_effect (Call Redshift (update_call doc)) w).
Proof.
  intros T H. rewrite (update_redshift_role_with_id env Redshift doc w T).
  unfold bind, execute, db_call. fold (update_call doc). now rewrite H.
Qed.

(** X14.  When the first Redshift statement of an insert, update or replace
    event raises, the exception leaves [process_event] at once: that one
    statement is the event's only driver call, and the Oracle sink is not
    invoked for the event. *)
Theorem failed_warehouse_write_skips_config env (r ev doc : dict) (w : world)
    (e : exn) :
  dict_get r "event" (VDict []) = VDict ev ->
  dict_get ev "fullDocument" (VDict []) = VDict doc ->
  is_upsert_kind (dict_get ev "operationType" VNone) = true ->
  truthy (canonical_id doc) = true ->
  (forall sql params, respond env (log w) Redshift (Execute sql params) = Fails e) ->
  fst (process_event env (VDict r) Redshift Oracle w) = Raised e
  /\ db_calls (effects_of (process_event env (VDict r) Redshift Oracle) w)
     = [ (Redshift,
          if eq_str (dict_get ev "operationType" VNone) "insert"
          then insert_call doc else update_call doc) ].
Proof.
  intros Hev Hdoc Hkind T Hfail.
  rewrite (effects_of_ext _ _ w (process_event_unfold env r ev w Hev)).
  rewrite (process_event_unfold env r ev w Hev). rewrite Hdoc.
  unfold is_upsert_kind in Hkind. rewrite <- orb_assoc in Hkind.
  destruct (eq_str (dict_get ev "operationType" VNone) "insert").
  - pose proof (insert_redshift_role_fails env doc w e T (Hfail _ _)) as H.
    split; [unfold bind; now rewrite H |].
    rewrite effects_of_bind by (intros; auto with grows).
    rewrite H, app_nil_r, insert_redshift_role_calls, T. reflexivity.
  - cbn [orb] in Hkind. rewrite Hkind.
    pose proof (update_redshift_role_fails env doc w e T (Hfail _ _)) as H.
    split; [unfold bind; now rewrite H |].
    rewrite effects_of_bind by (intros; auto with grows).
    rewrite H, app_nil_r, update_redshift_role_calls, T.
    unfold update_call at 2. now rewrite Hfail.
Qed.

Lemma failed_warehouse_write_skips_config_witness :
  fst (process_event failing_env (change_event "update" sample_doc sample_doc_key)
         Redshift Oracle initial_world)
  = Raised (Exn "DatabaseError" "relation does not exist")
  /\ db_calls (effects_of (process_event failing_env
                             (change_event "update" sample_doc sample_doc_key)
                             Redshift Oracle) initial_world)
     = [ (Redshift, update_call sample_doc) ].
Proof.
  apply (failed_warehouse_write_skips_config failing_env
           [ ("event", VDict [ ("operationType", VStr "update");
                               ("fullDocument", VDict sample_doc);
                               ("documentKey", VDict sample_doc_key) ]) ]
           [ ("operationType", VStr "update"); ("fullDocument", VDict sample_doc);
             ("documentKey", VDict sample_doc_key) ]
           sample_doc initial_world (Exn "DatabaseError" "relation does not exist"));
    reflexivity.
Defined.

(** X15.  An insert, update or replace event whose ['fullDocument'] is
    present but is not a dict (for instance [null]) raises
    [AttributeError] before anything is printed or executed; only a
    missing ['fullDocument'] is replaced by the empty document. *)
Theorem full_document_must_be_a_dict env (r ev : dict) (v : value) (w : world) :
  dict_get r "event" (VDict []) = VDict ev ->
  is_upsert_kind (dict_get ev "operationType" VNone) = true ->
  dict_get ev "fullDocument" (VDict []) = v ->
  is_dict v = false ->
  process_event env (VDict r) Redshift Oracle w = (Raised (AttributeError v "get"), w).
Proof.
  intros Hev Hkind Hdoc D.
  rewrite (process_event_unfold env r ev w Hev). rewrite Hdoc.
  unfold is_upsert_kind in Hkind. rewrite <- orb_assoc in Hkind.
  destruct (eq_str (dict_get ev "operationType" VNone) "insert").
  - unfold bind. now rewrite insert_redshift_role_not_dict.
  - cbn [orb] in Hkind. rewrite Hkind.
    unfold bind. now rewrite update_redshift_role_not_dict.
Qed.

Lemma full_document_must_be_a_dict_witness :
  process_event mock_env
    (VDict [ ("event", VDict [ ("operationType", VStr "update");
                               ("fullDocument", VNone) ]) ])
    Redshift Oracle initial_world
  = (Raised (AttributeError VNone "get"), initial_world).
Proof.
  apply (full_document_must_be_a_dict mock_env
           [ ("event", VDict [ ("operationType", VStr "update");
                               ("fullDocument", VNone) ]) ]
           [ ("operationType", VStr "update"); ("fullDocument", VNone) ]
           VNone initial_world); reflexivity.
Defined.

(** X16.  Called with an operation type other than insert, update, replace
    and delete on a document that has a role_id, [update_oracle_role]
    either does nothing at all, not even a print, when the document is not
    soft-deleted, or issues the DELETE when it is. *)
Theorem oracle_sink_on_unknown_operation env cursor (doc : dict)
    (operation_type : value) (w : world) :
  truthy (dict_get doc "role_id" VNone) = true ->
  is_upsert_kind operation_type = false ->
  eq_str operation_type "delete" = false ->
  (truthy (dict_get doc "is_deleted" (VBool false)) = false ->
   update_oracle_role env cursor (VDict doc) operation_type w = (Normal tt, w))
  /\ (truthy (dict_get doc "is_deleted" (VBool false)) = true ->
      db_calls (effects_of (update_oracle_role env cursor (VDict doc) operation_type) w)
      = [(cursor, delete_call (dict_get doc "role_id" VNone))]).
Proof.
  intros Hid Hkind Hdel. split; intro Hflag.
  - unfold update_oracle_role, get, bind at 1, ret. cbv beta iota.
    rewrite Hid. cbv beta iota delta [negb].
    unfold bind at 1. cbv beta iota.
    unfold is_upsert_kind in Hkind. now rewrite Hkind, Hdel, Hflag.
  - rewrite update_oracle_role_calls. unfold config_action.
    now rewrite Hid, Hflag.
Qed.

Lemma oracle_sink_on_unknown_operation_witness :
  update_oracle_role mock_env Oracle (VDict sample_doc) (VStr "drop") initial_world
  = (Normal tt, initial_world)
  /\ db_calls (effects_of (update_oracle_role mock_env Oracle
                             (VDict [("role_id", VStr "admin"); ("is_deleted", VBool true)])
                             (VStr "drop")) initial_world)
     = [(Oracle, delete_call (VStr "admin"))].
Proof.
  split.
  - apply (proj1 (oracle_sink_on_unknown_operation mock_env Oracle sample_doc
                    (VStr "drop") initial_world eq_refl eq_refl eq_refl)).
    reflexivity.
  - apply (proj2 (oracle_sink_on_unknown_operation mock_env Oracle
                    [("role_id", VStr "admin"); ("is_deleted", VBool true)]
                    (VStr "drop") initial_world eq_refl eq_refl eq_refl)).
    reflexivity.
Defined.

(** X17.  A record without an ['event'] entry, and an event without an
    ['operationType'] entry, are handled like an unknown kind:
    [process_event] returns after the single print
    ['Unsupported operation: None'] and makes no driver call. *)
Theorem missing_operation_type_is_unsupported env (r : dict) (w : world) :
  lookup "event" r = None
  \/ (exists ev, lookup "event" r = Some (VDict ev)
                 /\ lookup "operationType" ev = None) ->
  process_event env (VDict r) Redshift Oracle w
  = (Normal tt, record_effect (Print "Unsupported operation: None") w).
Proof.
  intros [Hnone | (ev & Hev & Hop)].
  - rewrite (process_event_unfold env r [] w);
      [reflexivity | unfold dict_get; now rewrite Hnone].
  - rewrite (process_event_unfold env r ev w);
      [| unfold dict_get; now rewrite Hev].
    unfold dict_get. rewrite Hop. reflexivity.
Qed.

Lemma missing_operation_type_is_unsupported_witness :
  process_event mock_env (VDict [ ("event", VDict [ ("fullDocument", VDict sample_doc) ]) ])
    Redshift Oracle initial_world
  = (Normal tt, record_effect (Print "Unsupported operation: None") initial_world).
Proof.
  apply (missing_operation_type_is_unsupported mock_env
           [ ("event", VDict [ ("fullDocument", VDict sample_doc) ]) ] initial_world).
  right. exists [ ("fullDocument", VDict sample_doc) ]. split; reflexivity.
Defined.

(** ** More on the batch *)

Lemma for_each_stops {A : Type} (body : A -> M unit) (pre : list A) (item : A)
    (rest : list A) (w wpre w1 : world) (e : exn) :
  for_each pre body w = (Normal tt, wpre) ->
  body item wpre = (Raised e, w1) ->
  for_each (pre ++ item :: rest) body w = (Raised e, w1).
Proof.
  revert w. induction pre as [| a pre IH]; intros w Hpre Hitem.
  - injection Hpre as <-. cbn [app for_each]. unfold bind. now rewrite Hitem.
  - cbn [app for_each] in *. unfold bind in *.
    destruct (body a w) as [[[] | e'] w']; [| discriminate Hpre].
    now apply IH.
Qed.

(** X18.  The batch stops at the first record that raises: when the
    records before it were processed and the iteration on it raises, the
    [try] body raises that exception in the world the record left; the
    records after it are not processed and no commit is attempted. *)
Theorem batch_stops_at_first_failure env (event : dict) (pre rest : list value)
    (record : value) (w wpre w1 : world) (e : exn) :
  dict_get event "events" (VList []) = VList (pre ++ record :: rest) ->
  for_each pre (loop_body env) (record_effect (Print "processing records") w)
  = (Normal tt, wpre) ->
  loop_body env record wpre = (Raised e, w1) ->
  process_records env (VDict event) w = (Raised e, w1).
Proof.
  intros Hevents Hpre Hrecord.
  rewrite process_records_loop.
  unfold bind at 1, print, emit. unfold bind at 1, get, ret. rewrite Hevents.
  unfold bind at 1, iterate, ret. unfold bind at 1.
  now rewrite (for_each_stops _ pre record rest _ wpre w1 e Hpre Hrecord).
Qed.

Lemma batch_stops_at_first_failure_witness :
  process_records failing_env
    (batch [ change_event "unknown" sample_doc sample_doc_key;
             change_event "insert" sample_doc sample_doc_key;
             change_event "delete" [] sample_doc_key ])
    initial_world
  = (Raised (Exn "DatabaseError" "relation does not exist"),
     snd (loop_body failing_env (change_event "insert" sample_doc sample_doc_key)
            (snd (loop_body failing_env
                    (change_event "unknown" sample_doc sample_doc_key)
                    (record_effect (Print "processing records") initial_world))))).
Proof.
  apply (batch_stops_at_first_failure failing_env
           [ ("events", VList [ change_event "unknown" sample_doc sample_doc_key;
                                change_event "insert" sample_doc sample_doc_key;
                                change_event "delete" [] sample_doc_key ]) ]
           [ change_event "unknown" sample_doc sample_doc_key ]
           [ change_event "delete" [] sample_doc_key ]
           (change_event "insert" sample_doc sample_doc_key)
           initial_world
           (snd (loop_body failing_env
                   (change_event "unknown" sample_doc sample_doc_key)
                   (record_effect (Print "processing records") initial_world))));
    reflexivity.
Defined.

(** X19.  The default [[]] of [event.get('events', [])] only covers a
    missing key.  When ['events'] is present and not iterable ([None], a
    bool or a number), the [try] body raises [TypeError] right after its
    first print; with both connections open and a clean-up that does not
    raise, the run then consists of the two rollbacks and the four closes,
    and ['OK'] is returned. *)
Theorem events_must_be_iterable env (event : dict) (context v : value)
    (w0 w : world) :
  open_connections env w0 = (Normal tt, w) ->
  dict_get event "events" (VList []) = v ->
  is_iterable v = false ->
  (forall history s c, c = Rollback \/ c = CloseCursor \/ c = CloseConnection ->
                       exists n, respond env history s c = Done n) ->
  process_records env (VDict event) w
  = (Raised (NotIterable v), record_effect (Print "processing records") w)
  /\ fst (lambda_handler env (VDict event) context w0) = Normal (VStr "OK")
  /\ db_calls (effects_of (lambda_handler env (VDict event) context) w0)
     = ((Redshift, Rollback) :: (Oracle, Rollback) :: the_four_closes).
Proof.
  intros Hopen Hevents Hiter Hok.
  assert (Hbody : process_records env (VDict event) w
                  = (Raised (NotIterable v),
                     record_effect (Print "processing records") w)).
  { rewrite process_records_loop.
    unfold bind at 1, print, emit. unfold bind at 1, get, ret. rewrite Hevents.
    unfold bind at 1. destruct v; (discriminate Hiter || reflexivity). }
  split; [exact Hbody |].
  destruct (on_error_run env (NotIterable v)
              (record_effect (Print "processing records") w))
    as (w2 & Herr & Lerr); [auto |].
  destruct (close_all_run env w2) as (w3 & Hclose & Lclose); [intuition |].
  assert (Htry : try_except_finally (process_records env (VDict event)) (on_error env)
                   (close_all env) w = (Normal tt, w3)).
  { unfold try_except_finally. now rewrite Hbody, Herr, Hclose. }
  split.
  - unfold lambda_handler, bind at 1. rewrite Hopen. unfold bind. now rewrite Htry.
  - rewrite (handler_effects_of_lambda env (VDict event) context w0 w Hopen).
    rewrite db_calls_app, setup_has_no_calls
      by apply emits_only_effects, emits_open_connections_setup.
    erewrite (effects_of_result _ _ _ _ _ Htry).
    2: { rewrite Lclose, Lerr. cbn [log record_effect].
         rewrite <- !app_assoc. reflexivity. }
    reflexivity.
Qed.

Lemma events_must_be_iterable_witness :
  process_records mock_env (VDict [("events", VNone)])
    (snd (open_connections mock_env initial_world))
  = (Raised (NotIterable VNone),
     record_effect (Print "processing records")
       (snd (open_connections mock_env initial_world)))
  /\ fst (lambda_handler mock_env (VDict [("events", VNone)]) VNone initial_world)
     = Normal (VStr "OK")
  /\ db_calls (effects_of (lambda_handler mock_env (VDict [("events", VNone)]) VNone)
                 initial_world)
     = ((Redshift, Rollback) :: (Oracle, Rollback) :: the_four_closes).
Proof.
  apply (events_must_be_iterable mock_env [("events", VNone)] VNone VNone
           initial_world (snd (open_connections mock_env initial_world))).
  - reflexivity.
  - reflexivity.
  - reflexivity.
  - intros history s c _. now exists 1.
Defined.
